(** * REGoth-bs: the character AI component (src/components/CharacterAI.cpp)

    A shallow embedding of [CharacterAI] and of [GameWorld::findObjectByName]:
    the locomotion state machine, the physics activation hysteresis, the
    per-tick motion integrator and the teleport entry point.

    The component talks to three collaborators whose code is not part of the
    files embedded here: the animation naming scheme (animation/StateNaming),
    the [VisualCharacter] component and the bsf engine (scene objects,
    quaternions, the character controller).  Each is an interface (a type
    class); the operations are written against the interfaces, and
    table-driven instances are used to evaluate them on concrete inputs. *)

From Stdlib Require Import ZArith Bool List Ascii String QArith.
From Stdlib Require Import Floats.SpecFloat.
From stdpp Require Import base option strings gmap.

Local Close Scope Q_scope.
Local Open Scope string_scope.

(** ** Single-precision numbers

    The C++ [float] is IEEE binary32; the operations are the ones of
    [SpecFloat] at precision 24 and maximal exponent 128 (round to nearest,
    ties to even). *)
Module F32.

Definition prec : Z := 24.
Definition emax : Z := 128.

Definition float : Type := spec_float.

Definition of_Z (n : Z) : float := binary_normalize prec emax n 0 false.

Definition add : float -> float -> float := SFadd prec emax.
Definition sub : float -> float -> float := SFsub prec emax.
Definition mul : float -> float -> float := SFmul prec emax.
Definition div : float -> float -> float := SFdiv prec emax.
Definition opp : float -> float := SFopp.
Definition abs : float -> float := SFabs.

(** [a > b] of C++: false as soon as one side is a NaN. *)
Definition gtb (a b : float) : bool := SFltb b a.
Definition ltb (a b : float) : bool := SFltb a b.

Definition zero : float := S754_zero false.
Definition one : float := of_Z 1.

(** A decimal literal [n / d] rounded to the nearest binary32. *)
Definition literal (n d : Z) : float := div (of_Z n) (of_Z d).

End F32.

Abbreviation float := F32.float.

(** ** bs::Vector3 (the arithmetic of bsf's inline header) *)
Record Vector3 : Type := mkVector3 { vx : float; vy : float; vz : float }.

Module Vec3.

Definition ZERO : Vector3 := mkVector3 F32.zero F32.zero F32.zero.
Definition UNIT_Y : Vector3 := mkVector3 F32.zero F32.one F32.zero.

Definition sub (a b : Vector3) : Vector3 :=
  mkVector3 (F32.sub (vx a) (vx b)) (F32.sub (vy a) (vy b)) (F32.sub (vz a) (vz b)).

(** [v *= s] *)
Definition scale (v : Vector3) (s : float) : Vector3 :=
  mkVector3 (F32.mul (vx v) s) (F32.mul (vy v) s) (F32.mul (vz v) s).

(** [x * x + y * y + z * z] *)
Definition squaredLength (v : Vector3) : float :=
  F32.add (F32.add (F32.mul (vx v) (vx v)) (F32.mul (vy v) (vy v)))
          (F32.mul (vz v) (vz v)).

Definition squaredDistance (a b : Vector3) : float := squaredLength (sub a b).

(** [v.y = s] *)
Definition set_y (v : Vector3) (s : float) : Vector3 := mkVector3 (vx v) s (vz v).

(** [v.y += s] *)
Definition add_y (v : Vector3) (s : float) : Vector3 :=
  mkVector3 (vx v) (F32.add (vy v) s) (vz v).

End Vec3.

(** ** The constants at the head of CharacterAI.cpp *)

(** How fast the character can turn when not holding a weapon. (Radians/Second) *)
Definition TURN_SPEED_NORMAL : float := F32.literal 5 100.

(** Multiplicator of how fast the character can turn while holding a weapon. *)
Definition TURN_SPEED_MULTIPLICATOR_WITH_WEAPON : float := F32.of_Z 2.

(** How far away the character can be from the camera until it should
    disable physics.  Must be larger than ACTIVATE_PHYSICS_RANGE_METERS. *)
Definition DEACTIVATE_PHYSICS_RANGE_METERS : float := F32.of_Z 45.

Definition ACTIVATE_PHYSICS_RANGE_METERS : float := F32.of_Z 40.

(** Acceleration of the Y-Axis while falling *)
Definition FALLING_ACCELERATION_Y : float := F32.opp (F32.literal 981 100).

(** Constant velocity to apply downwards to keep the player on the ground *)
Definition DOWNWARDS_VELOCITY_WHILE_WALKING : float := F32.opp (F32.of_Z 10).

(** The threshold of [handleTurning], [0.0001f]. *)
Definition TURN_EPSILON : float := F32.literal 1 10000.

(** ** Enumerations *)

(** Modelled from the spec: the declaration of AI::WalkMode (AI.hpp) is
    missing; the spec gives LocomotionMode as Run, Walk, Sneak. *)
Inductive WalkMode : Type := Run | Walk | Sneak.

(** Modelled from the spec: the declaration of AI::WeaponMode (AI.hpp) is
    missing; the spec gives WeaponMode as None, Fist and further weapons. *)
Inductive WeaponMode : Type := NoWeapon | Fist | OneHanded | TwoHanded | Ranged.

(** CharacterAI::TurnDirection, as the switch of [handleTurning] lists it. *)
Inductive TurnDirection : Type := TurnNone | TurnLeft | TurnRight.

#[global] Instance WalkMode_eq_dec : EqDecision WalkMode.
Proof. solve_decision. Defined.
#[global] Instance WeaponMode_eq_dec : EqDecision WeaponMode.
Proof. solve_decision. Defined.
#[global] Instance TurnDirection_eq_dec : EqDecision TurnDirection.
Proof. solve_decision. Defined.

(** bs::CharacterCollisionFlags, the result of a controller move. *)
Record CollisionFlags : Type :=
  mkFlags { flagSides : bool; flagUp : bool; flagDown : bool }.

(** ** The collaborators *)

(** animation/StateNaming: the naming scheme of state animations.  Its code
    is not among the embedded files, so both functions are parameters. *)
Class StateNaming : Type := {
  (** AnimationState::constructStateAnimationName(weapon, walk, state) *)
  constructStateAnimationName : WeaponMode -> WalkMode -> string -> string;
  (** AnimationState::getStateName(animation); empty when the name does not
      follow the scheme *)
  getStateName : string -> string;
}.

(** components/VisualCharacter: the animation port.  [Visual] is the state of
    the component, [Clip] a non-null HAnimationClip; a null handle is [None]. *)
Class VisualCharacter : Type := {
  Visual : Type;
  Clip : Type;
  Clip_eq_dec :: EqDecision Clip;
  hasVisual : Visual -> bool;
  getPlayingAnimationName : Visual -> string;
  findAnimationClip : Visual -> string -> option Clip;
  (** findAnimationToTransitionTo(to): from the state being played *)
  findAnimationToTransitionTo : Visual -> string -> string;
  (** findAnimationToTransitionTo(from, to) *)
  findAnimationToTransitionFromTo : Visual -> string -> string -> string;
  isAnimationPlaying : Visual -> Clip -> bool;
  isPlayingAnimationInterruptable : Visual -> bool;
  isPlayingIdleAnimation : Visual -> bool;
  isPlayingFlyingAnimation : Visual -> bool;
  playAnimationClip : Visual -> Clip -> Visual;
  (** resolveFrameRootMotion(): the motion since the last query, consumed *)
  resolveFrameRootMotion : Visual -> Vector3 * Visual;
}.

(** The bsf engine: rotations, the character controller and the scene graph
    below the world's root. *)
Class Engine : Type := {
  Quaternion : Type;
  (** Quaternion::rotate(v) *)
  quatRotate : Quaternion -> Vector3 -> Vector3;
  (** SceneObject::rotate(axis, angle), on the rotation it changes *)
  rotateAxisAngle : Quaternion -> Vector3 -> float -> Quaternion;
  (** SceneObject::setForward(direction), on the rotation it changes *)
  setForward : Quaternion -> Vector3 -> Quaternion;
  (** Vector3::normalize() *)
  normalize : Vector3 -> Vector3;
  Controller : Type;
  (** CCharacterController::move(displacement), at a position: the new
      controller state, the new position and the collision flags *)
  controllerMove : Controller -> Vector3 -> Vector3 -> Controller * Vector3 * CollisionFlags;
  Scene : Type;
  HSceneObject : Type;
  (** SceneObject::findChild(name) from the world's root, null as [None] *)
  findChild : Scene -> string -> option HSceneObject;
  isDestroyed : Scene -> HSceneObject -> bool;
  (** so->getTransform().pos() and so->getTransform().getForward() *)
  objectPosition : Scene -> HSceneObject -> Vector3;
  objectForward : Scene -> HSceneObject -> Vector3;
}.

Section CharacterAI.

Context `{Naming : StateNaming} `{VC : VisualCharacter} `{Eng : Engine}.

(** A call of playAnimationClip on the visual or of move on the character
    controller; the component keeps them in the order of the calls.  What
    else it does to its collaborators shows in their state: the rotation of
    the scene object, the root motion taken from the visual. *)
Inductive PortCall : Type :=
| CallPlayAnimationClip (clip : Clip)
| CallMove (velocity : Vector3).

(** The component: its own fields, the state of the two components it
    holds handles to, the transform of its scene object, and the commands
    it has sent so far. *)
Record CharacterAI : Type := mkCharacterAI {
  mWalkMode : WalkMode;
  mWeaponMode : WeaponMode;
  mTurnDirection : TurnDirection;
  mIsPhysicsActive : bool;
  mIsInAir : bool;
  mIsStandingOnSolidGround : bool;
  mFallingVelocity : float;
  mVisual : Visual;
  mCharacterController : Controller;
  soPosition : Vector3;
  soRotation : Quaternion;
  portCalls : list PortCall;
}.

Definition set_mWalkMode (ai : CharacterAI) (w : WalkMode) : CharacterAI :=
  mkCharacterAI w (mWeaponMode ai) (mTurnDirection ai) (mIsPhysicsActive ai)
    (mIsInAir ai) (mIsStandingOnSolidGround ai) (mFallingVelocity ai) (mVisual ai)
    (mCharacterController ai) (soPosition ai) (soRotation ai) (portCalls ai).

Definition set_mWeaponMode (ai : CharacterAI) (w : WeaponMode) : CharacterAI :=
  mkCharacterAI (mWalkMode ai) w (mTurnDirection ai) (mIsPhysicsActive ai)
    (mIsInAir ai) (mIsStandingOnSolidGround ai) (mFallingVelocity ai) (mVisual ai)
    (mCharacterController ai) (soPosition ai) (soRotation ai) (portCalls ai).

Definition set_mTurnDirection (ai : CharacterAI) (d : TurnDirection) : CharacterAI :=
  mkCharacterAI (mWalkMode ai) (mWeaponMode ai) d (mIsPhysicsActive ai)
    (mIsInAir ai) (mIsStandingOnSolidGround ai) (mFallingVelocity ai) (mVisual ai)
    (mCharacterController ai) (soPosition ai) (soRotation ai) (portCalls ai).

Definition set_mIsPhysicsActive (ai : CharacterAI) (b : bool) : CharacterAI :=
  mkCharacterAI (mWalkMode ai) (mWeaponMode ai) (mTurnDirection ai) b
    (mIsInAir ai) (mIsStandingOnSolidGround ai) (mFallingVelocity ai) (mVisual ai)
    (mCharacterController ai) (soPosition ai) (soRotation ai) (portCalls ai).

Definition set_mIsInAir (ai : CharacterAI) (b : bool) : CharacterAI :=
  mkCharacterAI (mWalkMode ai) (mWeaponMode ai) (mTurnDirection ai) (mIsPhysicsActive ai)
    b (mIsStandingOnSolidGround ai) (mFallingVelocity ai) (mVisual ai)
    (mCharacterController ai) (soPosition ai) (soRotation ai) (portCalls ai).

Definition set_mIsStandingOnSolidGround (ai : CharacterAI) (b : bool) : CharacterAI :=
  mkCharacterAI (mWalkMode ai) (mWeaponMode ai) (mTurnDirection ai) (mIsPhysicsActive ai)
    (mIsInAir ai) b (mFallingVelocity ai) (mVisual ai)
    (mCharacterController ai) (soPosition ai) (soRotation ai) (portCalls ai).

Definition set_mFallingVelocity (ai : CharacterAI) (v : float) : CharacterAI :=
  mkCharacterAI (mWalkMode ai) (mWeaponMode ai) (mTurnDirection ai) (mIsPhysicsActive ai)
    (mIsInAir ai) (mIsStandingOnSolidGround ai) v (mVisual ai)
    (mCharacterController ai) (soPosition ai) (soRotation ai) (portCalls ai).

Definition set_mVisual (ai : CharacterAI) (v : Visual) : CharacterAI :=
  mkCharacterAI (mWalkMode ai) (mWeaponMode ai) (mTurnDirection ai) (mIsPhysicsActive ai)
    (mIsInAir ai) (mIsStandingOnSolidGround ai) (mFallingVelocity ai) v
    (mCharacterController ai) (soPosition ai) (soRotation ai) (portCalls ai).

Definition set_soPosition (ai : CharacterAI) (p : Vector3) : CharacterAI :=
  mkCharacterAI (mWalkMode ai) (mWeaponMode ai) (mTurnDirection ai) (mIsPhysicsActive ai)
    (mIsInAir ai) (mIsStandingOnSolidGround ai) (mFallingVelocity ai) (mVisual ai)
    (mCharacterController ai) p (soRotation ai) (portCalls ai).

Definition set_soRotation (ai : CharacterAI) (q : Quaternion) : CharacterAI :=
  mkCharacterAI (mWalkMode ai) (mWeaponMode ai) (mTurnDirection ai) (mIsPhysicsActive ai)
    (mIsInAir ai) (mIsStandingOnSolidGround ai) (mFallingVelocity ai) (mVisual ai)
    (mCharacterController ai) (soPosition ai) q (portCalls ai).

(** mVisual->playAnimationClip(clip): the component changes and the call
    is recorded. *)
Definition doPlayAnimationClip (ai : CharacterAI) (clip : Clip) : CharacterAI :=
  mkCharacterAI (mWalkMode ai) (mWeaponMode ai) (mTurnDirection ai) (mIsPhysicsActive ai)
    (mIsInAir ai) (mIsStandingOnSolidGround ai) (mFallingVelocity ai)
    (playAnimationClip (mVisual ai) clip)
    (mCharacterController ai) (soPosition ai) (soRotation ai)
    (portCalls ai ++ [CallPlayAnimationClip clip]).

(** mCharacterController->move(velocity): the controller moves the scene
    object and the call is recorded; the flags are returned. *)
Definition doMove (ai : CharacterAI) (velocity : Vector3) : CollisionFlags * CharacterAI :=
  let '(ctrl, pos, flags) := controllerMove (mCharacterController ai) (soPosition ai) velocity in
  (flags,
   mkCharacterAI (mWalkMode ai) (mWeaponMode ai) (mTurnDirection ai) (mIsPhysicsActive ai)
     (mIsInAir ai) (mIsStandingOnSolidGround ai) (mFallingVelocity ai) (mVisual ai)
     ctrl pos (soRotation ai) (portCalls ai ++ [CallMove velocity])).

(** *** Physics activation (lines 66-123) *)

Definition deactivatePhysics (ai : CharacterAI) : CharacterAI := set_mIsPhysicsActive ai false.
Definition activatePhysics (ai : CharacterAI) : CharacterAI := set_mIsPhysicsActive ai true.

Definition shouldDisablePhysics (ai : CharacterAI) (cameraPosition : Vector3) : bool :=
  let maxRangeSq := F32.mul DEACTIVATE_PHYSICS_RANGE_METERS DEACTIVATE_PHYSICS_RANGE_METERS in
  F32.gtb (Vec3.squaredDistance cameraPosition (soPosition ai)) maxRangeSq.

Definition shouldEnablePhysics (ai : CharacterAI) (cameraPosition : Vector3) : bool :=
  let minRangeSq := F32.mul ACTIVATE_PHYSICS_RANGE_METERS ACTIVATE_PHYSICS_RANGE_METERS in
  F32.ltb (Vec3.squaredDistance cameraPosition (soPosition ai)) minRangeSq.

Definition isPhysicsActive (ai : CharacterAI) : bool := mIsPhysicsActive ai.

Definition handlePhysicsActivation (ai : CharacterAI) (cameraPosition : Vector3) : CharacterAI :=
  if mIsPhysicsActive ai then
    if shouldDisablePhysics ai cameraPosition then deactivatePhysics ai else ai
  else
    if shouldEnablePhysics ai cameraPosition then activatePhysics ai else ai.

(** *** Locomotion state machine (lines 125-313, 531-586) *)

Definition isTurningAllowed (ai : CharacterAI) : bool := true.

Definition isStanding (ai : CharacterAI) : bool :=
  let currentAnimation := getPlayingAnimationName (mVisual ai) in
  let currentState := getStateName currentAnimation in
  if String.eqb currentState "RUN" then true
  else if String.eqb currentState "WALK" then true
  else false.

(** The first statement fetches the VisualCharacter of the scene object
    again; a scene object has one, so [mVisual] denotes the same component
    before and after. *)
Definition isStateSwitchAllowed (ai : CharacterAI) : bool :=
  let playingAnim := getPlayingAnimationName (mVisual ai) in
  if String.eqb playingAnim "" then true
  else
    let state := getStateName playingAnim in
    if String.eqb state "" then false
    else if negb (isPlayingAnimationInterruptable (mVisual ai)) then false
    else true.

Definition doesStateExist (ai : CharacterAI) (state : string) : bool :=
  let anim := constructStateAnimationName (mWeaponMode ai) (mWalkMode ai) state in
  match findAnimationClip (mVisual ai) anim with
  | Some _ => true
  | None => false
  end.

Definition tryPlayTransitionAnimationTo (ai : CharacterAI) (anim : string)
  : bool * CharacterAI :=
  if negb (hasVisual (mVisual ai)) then (false, ai)
  else
    let playingNow := getPlayingAnimationName (mVisual ai) in
    let clipPlayingNow := findAnimationClip (mVisual ai) playingNow in
    let animToPlay := findAnimationToTransitionTo (mVisual ai) anim in
    let clip := findAnimationClip (mVisual ai) animToPlay in
    if decide (clip = clipPlayingNow) then (true, ai)
    else
      let clip :=
        match clip with
        | Some c => Some c
        | None =>
            if isStanding ai then
              findAnimationClip (mVisual ai)
                (findAnimationToTransitionFromTo (mVisual ai) "S_STAND" anim)
            else None
        end in
      match clip with
      | None => (false, ai)
      | Some c =>
          if negb (isAnimationPlaying (mVisual ai) c)
          then (true, doPlayAnimationClip ai c)
          else (true, ai)
      end.

Definition tryTransitionToState (ai : CharacterAI) (state : string) : bool * CharacterAI :=
  if negb (isStateSwitchAllowed ai) then (false, ai)
  else
    let anim := constructStateAnimationName (mWeaponMode ai) (mWalkMode ai) state in
    tryPlayTransitionAnimationTo ai anim.

Definition goForward (ai : CharacterAI) : bool * CharacterAI :=
  tryTransitionToState ai "L".

Definition goBackward (ai : CharacterAI) : bool * CharacterAI :=
  if doesStateExist ai "BL" then tryTransitionToState ai "BL"
  else
    if negb (isStateSwitchAllowed ai) then (false, ai)
    else tryPlayTransitionAnimationTo ai "T_JUMPB".

Definition turnLeft (ai : CharacterAI) : bool * CharacterAI :=
  if negb (isTurningAllowed ai) then (false, ai)
  else (true, set_mTurnDirection ai TurnLeft).

Definition turnRight (ai : CharacterAI) : bool * CharacterAI :=
  if negb (isTurningAllowed ai) then (false, ai)
  else (true, set_mTurnDirection ai TurnRight).

Definition stopTurning (ai : CharacterAI) : bool * CharacterAI :=
  (true, set_mTurnDirection ai TurnNone).

Definition stopMoving (ai : CharacterAI) : bool * CharacterAI :=
  let '(ok, ai1) := tryTransitionToState ai "" in
  if ok then (true, ai1)
  else
    let '(ok2, ai2) := tryPlayTransitionAnimationTo ai1 "S_STAND" in
    if ok2 then (true, ai2) else (false, ai2).

Definition jump (ai : CharacterAI) : bool * CharacterAI :=
  if negb (isStateSwitchAllowed ai) then (false, ai)
  else if mIsInAir ai then (false, ai)
  else tryPlayTransitionAnimationTo ai "S_JUMP".

Definition changeWalkMode (ai : CharacterAI) (walkMode : WalkMode) : bool * CharacterAI :=
  let stateTarget := constructStateAnimationName (mWeaponMode ai) walkMode "" in
  let '(wasAllowed, ai1) := tryPlayTransitionAnimationTo ai stateTarget in
  let ai2 := if wasAllowed then set_mWalkMode ai1 walkMode else ai1 in
  (wasAllowed, ai2).

Definition changeWeaponMode (ai : CharacterAI) (mode : WeaponMode) : bool * CharacterAI :=
  if negb (hasVisual (mVisual ai)) then
    (true, set_mWeaponMode ai mode)
  else
    let stateTarget := constructStateAnimationName mode (mWalkMode ai) "" in
    let '(wasAllowed, ai1) := tryPlayTransitionAnimationTo ai stateTarget in
    let ai2 := if wasAllowed then set_mWeaponMode ai1 mode else ai1 in
    let ai3 :=
      if negb wasAllowed then
        match findAnimationClip (mVisual ai2) stateTarget with
        | Some c => set_mWeaponMode (doPlayAnimationClip ai2 c) mode
        | None => ai2
        end
      else ai2 in
    (wasAllowed, ai3).

(** *** Motion integrator (lines 351-463) *)

(** What a tick reads from the engine's globals: the position of the main
    camera and bs::gTime().getFixedFrameDelta(). *)
Record TickInput : Type := mkTickInput {
  cameraPosition : Vector3;
  fixedFrameDelta : float;
}.

Definition needsToUpdatePhysics (ai : CharacterAI) (rootMotion : Vector3) : bool :=
  if mIsInAir ai then true
  else if negb (mIsStandingOnSolidGround ai) then true
  else if F32.gtb (Vec3.squaredLength rootMotion) F32.zero then true
  else false.

Definition handleTurning (ai : CharacterAI) : CharacterAI :=
  let frameTurn :=
    match mTurnDirection ai with
    | TurnNone => F32.zero
    | TurnLeft => F32.opp TURN_SPEED_NORMAL
    | TurnRight => TURN_SPEED_NORMAL
    end in
  if F32.gtb (F32.abs frameTurn) TURN_EPSILON
  then set_soRotation ai (rotateAxisAngle (soRotation ai) Vec3.UNIT_Y frameTurn)
  else ai.

Definition handleFallingAndFlying (ai : CharacterAI) (frameDelta : float) : CharacterAI :=
  if isPlayingFlyingAnimation (mVisual ai) then
    set_mFallingVelocity (set_mIsInAir ai true) F32.zero
  else if negb (mIsInAir ai) then
    set_mFallingVelocity ai F32.zero
  else
    set_mFallingVelocity ai
      (F32.add (mFallingVelocity ai) (F32.mul FALLING_ACCELERATION_Y frameDelta)).

(** Lines 367-379: the root motion of the tick and the component after the
    query. *)
Definition frameRootMotion (ai : CharacterAI) : Vector3 * CharacterAI :=
  if negb (isPlayingIdleAnimation (mVisual ai)) then
    let '(rootMotion, visual) := resolveFrameRootMotion (mVisual ai) in
    let rootMotion := quatRotate (soRotation ai) rootMotion in
    let rootMotion := Vec3.scale rootMotion (F32.opp F32.one) in
    (rootMotion, set_mVisual ai visual)
  else (Vec3.ZERO, ai).

(** Lines 381-403. *)
Definition updatePhysics (ai : CharacterAI) (rootMotion : Vector3) (frameDelta : float)
  : CharacterAI :=
  if needsToUpdatePhysics ai rootMotion then
    let velocity := rootMotion in
    let velocity :=
      if mIsInAir ai
      then Vec3.add_y velocity (F32.mul (mFallingVelocity ai) frameDelta)
      else Vec3.add_y velocity (F32.mul DOWNWARDS_VELOCITY_WHILE_WALKING frameDelta) in
    let '(flags, ai1) := doMove ai velocity in
    let ai2 := set_mIsStandingOnSolidGround ai1 (flagDown flags) in
    set_mIsInAir ai2 (negb (flagDown flags))
  else ai.

Definition fixedUpdate (ai : CharacterAI) (input : TickInput) : CharacterAI :=
  let ai := handlePhysicsActivation ai (cameraPosition input) in
  if negb (mIsPhysicsActive ai) then ai
  else
    let ai := if isTurningAllowed ai then handleTurning ai else ai in
    let ai := handleFallingAndFlying ai (fixedFrameDelta input) in
    let '(rootMotion, ai) := frameRootMotion ai in
    updatePhysics ai rootMotion (fixedFrameDelta input).

(** The component after each tick of a run, oldest first. *)
Fixpoint fixedUpdates (ai : CharacterAI) (inputs : list TickInput) : list CharacterAI :=
  match inputs with
  | [] => []
  | input :: rest =>
      let ai' := fixedUpdate ai input in
      ai' :: fixedUpdates ai' rest
  end.

(** *** GameWorld::findObjectByName and CharacterAI::teleport *)

Record GameWorld : Type := mkGameWorld {
  mSceneObjectsByNameCached : gmap string HSceneObject;
  scene : Scene;
}.

(** The boolean value of a scene object handle: not null, not destroyed. *)
Definition handleIsValid (w : GameWorld) (so : option HSceneObject) : bool :=
  match so with
  | Some h => negb (isDestroyed (scene w) h)
  | None => false
  end.

Definition findObjectByName (w : GameWorld) (name : string)
  : option HSceneObject * GameWorld :=
  let cached :=
    match mSceneObjectsByNameCached w !! name with
    | Some h => if negb (isDestroyed (scene w) h) then Some h else None
    | None => None
    end in
  match cached with
  | Some h => (Some h, w)
  | None =>
      let so := findChild (scene w) name in
      if handleIsValid w so then
        match so with
        | Some h => (so, mkGameWorld (<[name := h]> (mSceneObjectsByNameCached w)) (scene w))
        | None => (so, w)
        end
      else (so, w)
  end.

Definition teleport (ai : CharacterAI) (w : GameWorld) (waypoint : string)
  : CharacterAI * GameWorld :=
  let '(so, w1) := findObjectByName w waypoint in
  if negb (handleIsValid w1 so) then (ai, w1)
  else
    match so with
    | None => (ai, w1)
    | Some h =>
        let ai1 := set_soPosition ai (objectPosition (scene w1) h) in
        let forwardCenterd := objectForward (scene w1) h in
        let forwardCenterd := Vec3.set_y forwardCenterd F32.zero in
        let forwardCenterd := normalize forwardCenterd in
        (set_soRotation ai1 (setForward (soRotation ai1) forwardCenterd), w1)
    end.

(** *** Notions the statements below are phrased with *)

(** The play and move calls made during a tick: what the tick appended to
    the ones made before it. *)
Definition tickCalls (ai : CharacterAI) (input : TickInput) : list PortCall :=
  drop (length (portCalls ai)) (portCalls (fixedUpdate ai input)).

(** The root motion a tick computes (lines 367-379 after the turning of
    line 362). *)
Definition tickRootMotion (ai : CharacterAI) : Vector3 :=
  fst (frameRootMotion (handleTurning ai)).

(** The clip a transition request resolves to (lines 240-258): the clip of
    the transition animation, or the one through the stand-in "S_STAND"
    while the character stands. *)
Definition resolveTransitionClip (ai : CharacterAI) (anim : string) : option Clip :=
  match findAnimationClip (mVisual ai) (findAnimationToTransitionTo (mVisual ai) anim) with
  | Some c => Some c
  | None =>
      if isStanding ai then
        findAnimationClip (mVisual ai)
          (findAnimationToTransitionFromTo (mVisual ai) "S_STAND" anim)
      else None
  end.

(** The clip of the animation being played (line 238), null when nothing
    known is playing. *)
Definition clipPlayingNow (ai : CharacterAI) : option Clip :=
  findAnimationClip (mVisual ai) (getPlayingAnimationName (mVisual ai)).

(** Line 244: the transition animation's clip is the one playing now. *)
Definition alreadyInTarget (ai : CharacterAI) (anim : string) : bool :=
  bool_decide
    (findAnimationClip (mVisual ai) (findAnimationToTransitionTo (mVisual ai) anim)
     = clipPlayingNow ai).

(** Along a run of ticks, the camera is never farther than the deactivation
    range from where the character is at that tick. *)
Fixpoint staysWithinDeactivateRange (ai : CharacterAI) (inputs : list TickInput) : Prop :=
  match inputs with
  | [] => True
  | input :: rest =>
      shouldDisablePhysics ai (cameraPosition input) = false
      /\ staysWithinDeactivateRange (fixedUpdate ai input) rest
  end.

(** Along a run of ticks, the camera is never nearer than the activation
    range. *)
Fixpoint staysOutsideActivateRange (ai : CharacterAI) (inputs : list TickInput) : Prop :=
  match inputs with
  | [] => True
  | input :: rest =>
      shouldEnablePhysics ai (cameraPosition input) = false
      /\ staysOutsideActivateRange (fixedUpdate ai input) rest
  end.

End CharacterAI.

(** ** Instances to evaluate the operations with *)

Module Tables.

(** Modelled from the spec: animation/StateNaming is missing; the spec has
    the clip name composed of the weapon mode, the locomotion mode and the
    requested substate, and the inverse for state names. *)
Definition weaponModeName (w : WeaponMode) : string :=
  match w with
  | NoWeapon => ""
  | Fist => "FIST"
  | OneHanded => "1H"
  | TwoHanded => "2H"
  | Ranged => "BOW"
  end.

Definition walkModeName (w : WalkMode) : string :=
  match w with
  | Run => "RUN"
  | Walk => "WALK"
  | Sneak => "SNEAK"
  end.

Definition stateAnimationName (weapon : WeaponMode) (walk : WalkMode) (state : string)
  : string :=
  "S_" ++ weaponModeName weapon ++ walkModeName walk ++ state.

Definition stateNameOf (animation : string) : string :=
  match animation with
  | String "S"%char (String "_"%char rest) => rest
  | _ => ""
  end.

#[export] Instance naming : StateNaming := {
  constructStateAnimationName := stateAnimationName;
  getStateName := stateNameOf;
}.

(** A VisualCharacter given by tables: the clips that exist (a clip is
    known by its name), the transition animation for each target, and what
    the component reports about the animation being played. *)
Record TableVisual : Type := mkTableVisual {
  tvHasVisual : bool;
  tvPlaying : string;
  tvClips : list string;
  tvTransitions : list (string * string);
  tvTransitionsFrom : list ((string * string) * string);
  tvInterruptable : bool;
  tvIdle : bool;
  tvFlying : bool;
  tvRootMotion : Vector3;
}.

Fixpoint assoc {K : Type} `{EqDecision K} (k : K) (l : list (K * string)) : string :=
  match l with
  | [] => ""
  | (k', v) :: rest => if decide (k = k') then v else assoc k rest
  end.

Definition tvFindClip (v : TableVisual) (name : string) : option string :=
  if decide (name ∈ tvClips v) then Some name else None.

Definition tvPlay (v : TableVisual) (clip : string) : TableVisual :=
  mkTableVisual (tvHasVisual v) clip (tvClips v) (tvTransitions v) (tvTransitionsFrom v)
    (tvInterruptable v) (tvIdle v) (tvFlying v) (tvRootMotion v).

Definition tvTakeRootMotion (v : TableVisual) : Vector3 * TableVisual :=
  (tvRootMotion v,
   mkTableVisual (tvHasVisual v) (tvPlaying v) (tvClips v) (tvTransitions v)
     (tvTransitionsFrom v) (tvInterruptable v) (tvIdle v) (tvFlying v) Vec3.ZERO).

#[export] Instance visual : VisualCharacter := {
  Visual := TableVisual;
  Clip := string;
  hasVisual := tvHasVisual;
  getPlayingAnimationName := tvPlaying;
  findAnimationClip := tvFindClip;
  findAnimationToTransitionTo := fun v to => assoc to (tvTransitions v);
  findAnimationToTransitionFromTo := fun v from to => assoc (from, to) (tvTransitionsFrom v);
  isAnimationPlaying := fun v clip => String.eqb (tvPlaying v) clip;
  isPlayingAnimationInterruptable := tvInterruptable;
  isPlayingIdleAnimation := tvIdle;
  isPlayingFlyingAnimation := tvFlying;
  playAnimationClip := tvPlay;
  resolveFrameRootMotion := tvTakeRootMotion;
}.

(** An engine given by tables.  A rotation is kept as the commands that
    produced it, newest first; vectors are left unrotated; the controller
    moves freely and reports the flags it was set up with; the scene is
    a list of named objects and a handle is an index into it. *)
Inductive RotationCommand : Type :=
| RotateAxisAngle (axis : Vector3) (angle : float)
| SetForward (direction : Vector3).

Record SceneObject : Type := mkSceneObject {
  soName : string;
  soDestroyed : bool;
  soPos : Vector3;
  soForward : Vector3;
}.

Fixpoint findIndex (name : string) (objects : list SceneObject) (i : nat) : option nat :=
  match objects with
  | [] => None
  | o :: rest =>
      if String.eqb (soName o) name && negb (soDestroyed o) then Some i
      else findIndex name rest (S i)
  end.

Definition add (a b : Vector3) : Vector3 :=
  mkVector3 (F32.add (vx a) (vx b)) (F32.add (vy a) (vy b)) (F32.add (vz a) (vz b)).

(** Normalisation in the manner of bsf: scaled by the inverse length
    unless the length is tiny. *)
Definition normalise (v : Vector3) : Vector3 :=
  let len := SFsqrt F32.prec F32.emax (Vec3.squaredLength v) in
  if F32.gtb len (F32.literal 1 100000000)
  then Vec3.scale v (F32.div F32.one len)
  else v.

#[export] Instance engine : Engine := {
  Quaternion := list RotationCommand;
  quatRotate := fun _ v => v;
  rotateAxisAngle := fun q axis angle => RotateAxisAngle axis angle :: q;
  setForward := fun q direction => SetForward direction :: q;
  normalize := normalise;
  Controller := CollisionFlags;
  controllerMove := fun ctrl pos velocity => (ctrl, add pos velocity, ctrl);
  Scene := list SceneObject;
  HSceneObject := nat;
  findChild := fun objects name => findIndex name objects 0;
  isDestroyed := fun objects h =>
    match objects !! h with Some o => soDestroyed o | None => true end;
  objectPosition := fun objects h =>
    match objects !! h with Some o => soPos o | None => Vec3.ZERO end;
  objectForward := fun objects h =>
    match objects !! h with Some o => soForward o | None => Vec3.ZERO end;
}.

Definition vec (a b c : Z) : Vector3 := mkVector3 (F32.of_Z a) (F32.of_Z b) (F32.of_Z c).

Definition onGround : CollisionFlags := mkFlags false false true.
Definition inTheAir : CollisionFlags := mkFlags false false false.

(** A human with the run animations: standing in S_RUN, the clip for
    running forward, and the transitions the model script lists. *)
Definition human : TableVisual :=
  mkTableVisual true "S_RUN"
    ["S_RUN"; "S_RUNL"; "T_RUN_2_RUNL"; "S_FISTRUN"; "T_JUMPB"; "S_JUMP"; "T_STAND_2_JUMP"]
    [("S_RUN", "S_RUN"); ("S_RUNL", "T_RUN_2_RUNL"); ("S_FISTRUN", "T_RUN_2_FIST");
     ("S_WALK", "T_RUN_2_WALK"); ("T_JUMPB", "T_JUMPB"); ("S_JUMP", "T_RUN_2_JUMP")]
    [(("S_STAND", "S_JUMP"), "T_STAND_2_JUMP")]
    true true false Vec3.ZERO.

(** A character whose visual was not set up yet. *)
Definition noVisual : TableVisual :=
  mkTableVisual false "" [] [] [] true false false Vec3.ZERO.

(** A creature with the run animations only: no clip to jump with. *)
Definition meatbug : TableVisual :=
  mkTableVisual true "S_RUN"
    ["S_RUN"; "S_RUNL"; "T_RUN_2_RUNL"]
    [("S_RUN", "S_RUN"); ("S_RUNL", "T_RUN_2_RUNL"); ("S_JUMP", "T_RUN_2_JUMP");
     ("T_JUMPB", "T_JUMPB")]
    []
    true true false Vec3.ZERO.

(** The human in the middle of a jump: a flying animation plays. *)
Definition jumping : TableVisual :=
  mkTableVisual (tvHasVisual human) "S_JUMP" (tvClips human) (tvTransitions human)
    (tvTransitionsFrom human) false false true Vec3.ZERO.

(** The human while the back jump plays, a one-shot clip that is not a
    state and is not to be interrupted. *)
Definition jumpingBack : TableVisual :=
  mkTableVisual (tvHasVisual human) "T_JUMPB" (tvClips human) (tvTransitions human)
    (tvTransitionsFrom human) false false false Vec3.ZERO.

(** A character at the origin, standing on the ground, physics active. *)
Definition standing (v : TableVisual) : CharacterAI :=
  mkCharacterAI Run NoWeapon TurnNone true false true F32.zero v onGround
    Vec3.ZERO [] [].

(** The same character with physics switched off. *)
Definition asleep (v : TableVisual) : CharacterAI :=
  mkCharacterAI Run NoWeapon TurnNone false false true F32.zero v onGround
    Vec3.ZERO [] [].

(** A character in free fall at one meter per second. *)
Definition falling (v : TableVisual) : CharacterAI :=
  mkCharacterAI Run NoWeapon TurnNone true true false (F32.opp F32.one) v inTheAir
    Vec3.ZERO [] [].

(** The same free fall, far away, with physics switched off. *)
Definition fallingAsleep (v : TableVisual) : CharacterAI :=
  mkCharacterAI Run NoWeapon TurnNone false true false (F32.opp F32.one) v inTheAir
    Vec3.ZERO [] [].

(** Ticks at 60 Hz with the camera 10, 42 and 100 meters away from the
    origin: inside the activation range, between the two ranges, and
    beyond the deactivation range. *)
Definition sixtieth : float := F32.literal 1 60.
Definition near : TickInput := mkTickInput (vec 10 0 0) sixtieth.
Definition band : TickInput := mkTickInput (vec 42 0 0) sixtieth.
Definition far : TickInput := mkTickInput (vec 100 0 0) sixtieth.

(** A world with one live waypoint, looking forward and upward, and one
    destroyed object; nothing cached yet. *)
Definition world : GameWorld :=
  mkGameWorld ∅
    [mkSceneObject "OLD_CAMP" true (vec 1 1 1) (vec 1 0 0);
     mkSceneObject "WP_START" false (vec 5 0 7) (vec 0 3 4)].

End Tables.

(** ** The rest of the component and of the world

    The movement requests, toggles and navigation helpers of CharacterAI.cpp
    that come next to the operations above, and the lookups of GameWorld. *)

(** [std::sqrt] on a float, correctly rounded. *)
Definition F32_sqrt : float -> float := SFsqrt F32.prec F32.emax.

(** Vector3::length(): the square root of the squared length. *)
Definition Vec3_length (v : Vector3) : float := F32_sqrt (Vec3.squaredLength v).

(** The tolerance of [isAtPosition], [0.5f]. *)
Definition AT_POSITION_TOLERANCE : float := F32.literal 1 2.

(** Neither a NaN nor an infinity. *)
Definition isFinite (x : float) : bool :=
  match x with
  | S754_zero _ | S754_finite _ _ _ => true
  | S754_infinity _ | S754_nan => false
  end.

Definition isFiniteVector (v : Vector3) : bool :=
  isFinite (vx v) && isFinite (vy v) && isFinite (vz v).

(** Not below zero: a NaN, a zero of either sign, or a number with the sign
    bit clear. *)
Definition notNegative (x : float) : Prop :=
  match x with
  | S754_zero _ | S754_nan => True
  | S754_infinity s | S754_finite s _ _ => s = false
  end.

(** The number a float stands for, exactly; none for a NaN or an infinity. *)
Definition exactValue (x : float) : option Q :=
  match x with
  | S754_zero _ => Some 0%Q
  | S754_finite s m e => Some (inject_Z (cond_Zopp s (Z.pos m)) * Qpower 2 e)%Q
  | S754_infinity _ | S754_nan => None
  end.

(** The square of the distance between two points, in exact arithmetic. *)
Definition exactSquaredDistance (a b : Vector3) : option Q :=
  match exactValue (vx a), exactValue (vy a), exactValue (vz a),
        exactValue (vx b), exactValue (vy b), exactValue (vz b) with
  | Some ax, Some ay, Some az, Some bx, Some by', Some bz =>
      Some ((ax - bx) * (ax - bx) + (ay - by') * (ay - by') + (az - bz) * (az - bz))%Q
  | _, _, _, _, _, _ => None
  end.

(** The distance between two points does not exceed a range, exactly: as
    neither is negative, the distance is at most the range when its square
    is at most the square of the range. *)
Definition exactDistanceAtMost (a b : Vector3) (range : Q) : Prop :=
  match exactSquaredDistance a b with
  | Some d2 => (0 <= range)%Q /\ (d2 <= range * range)%Q
  | None => False
  end.

(** SceneObject::lookAt(location) of bsf, on the rotation it changes, for an
    object at a position. *)
Class SceneLookAt `{Eng : Engine} : Type := {
  lookAt : Quaternion -> Vector3 -> Vector3 -> Quaternion;
}.

(** components/Waynet: the waypoint graph the world delegates to.  A null
    waypoint handle is [None]. *)
Class WaynetPort : Type := {
  Waynet : Type;
  HWaypoint : Type;
  (** Waynet::findWaypoint(name) *)
  findWaypoint : Waynet -> string -> option HWaypoint;
  (** Waynet::findClosestWaypointTo(position).closest *)
  findClosestWaypointTo : Waynet -> Vector3 -> option HWaypoint;
  (** Waynet::findWay(from, to) *)
  waynetFindWay : Waynet -> HWaypoint -> HWaypoint -> list HWaypoint;
}.

Section MoreOfCharacterAI.

Context `{Naming : StateNaming} `{VC : VisualCharacter} `{Eng : Engine}.
Context `{Look : !SceneLookAt} `{Net : WaynetPort}.

(** *** The distance of the camera along a run of ticks *)

(** The squared distance the activation tests of a tick measure (lines 84
    and 95), in single precision. *)
Definition squaredDistanceToCamera (ai : CharacterAI) (input : TickInput) : float :=
  Vec3.squaredDistance (cameraPosition input) (soPosition ai).

(** Along a run of ticks the measured squared distance is never above a
    limit: at each tick, for the character where it is at that tick. *)
Fixpoint squaredDistanceNeverAbove (limit : float) (ai : CharacterAI)
  (inputs : list TickInput) : Prop :=
  match inputs with
  | [] => True
  | input :: rest =>
      F32.gtb (squaredDistanceToCamera ai input) limit = false
      /\ squaredDistanceNeverAbove limit (fixedUpdate ai input) rest
  end.

(** Along a run of ticks the measured squared distance is never below a
    limit. *)
Fixpoint squaredDistanceNeverBelow (limit : float) (ai : CharacterAI)
  (inputs : list TickInput) : Prop :=
  match inputs with
  | [] => True
  | input :: rest =>
      F32.ltb (squaredDistanceToCamera ai input) limit = false
      /\ squaredDistanceNeverBelow limit (fixedUpdate ai input) rest
  end.

(** Along a run of ticks the exact distance between the camera and the
    character never exceeds a range. *)
Fixpoint exactDistanceNeverExceeds (range : Q) (ai : CharacterAI)
  (inputs : list TickInput) : Prop :=
  match inputs with
  | [] => True
  | input :: rest =>
      exactDistanceAtMost (cameraPosition input) (soPosition ai) range
      /\ exactDistanceNeverExceeds range (fixedUpdate ai input) rest
  end.

(** *** Strafing and toggles (lines 150-182, 588-644) *)

Definition strafeLeft (ai : CharacterAI) : bool * CharacterAI :=
  if negb (isStateSwitchAllowed ai) then (false, ai)
  else
    match mWalkMode ai with
    | Run => tryPlayTransitionAnimationTo ai "T_RUNSTRAFEL"
    | Walk => tryPlayTransitionAnimationTo ai "T_WALKSTRAFEL"
    | Sneak => tryPlayTransitionAnimationTo ai "T_SNEAKSTRAFEL"
    end.

Definition strafeRight (ai : CharacterAI) : bool * CharacterAI :=
  if negb (isStateSwitchAllowed ai) then (false, ai)
  else
    match mWalkMode ai with
    | Run => tryPlayTransitionAnimationTo ai "T_RUNSTRAFER"
    | Walk => tryPlayTransitionAnimationTo ai "T_WALKSTRAFER"
    | Sneak => tryPlayTransitionAnimationTo ai "T_SNEAKSTRAFER"
    end.

Definition tryToggleWalking (ai : CharacterAI) : CharacterAI :=
  match mWalkMode ai with
  | Run => snd (changeWalkMode ai Walk)
  | Walk => snd (changeWalkMode ai Run)
  | Sneak => snd (changeWalkMode ai Run)
  end.

Definition tryToggleSneaking (ai : CharacterAI) : CharacterAI :=
  match mWalkMode ai with
  | Run => snd (changeWalkMode ai Sneak)
  | Walk => snd (changeWalkMode ai Sneak)
  | Sneak => snd (changeWalkMode ai Run)
  end.

Definition tryToggleMeleeWeapon (ai : CharacterAI) : CharacterAI :=
  match mWeaponMode ai with
  | NoWeapon => snd (changeWeaponMode ai Fist)
  | _ => snd (changeWeaponMode ai NoWeapon)
  end.

(** What a movement request may do: reject and change nothing, accept and
    change nothing, or accept and send one play command, for a clip the
    visual has and does not report as playing. *)
Definition requestOutcome (ai : CharacterAI) (result : bool * CharacterAI) : Prop :=
  result = (false, ai)
  \/ result = (true, ai)
  \/ exists name clip,
      hasVisual (mVisual ai) = true
      /\ findAnimationClip (mVisual ai) name = Some clip
      /\ isAnimationPlaying (mVisual ai) clip = false
      /\ result = (true, doPlayAnimationClip ai clip).

(** *** Going to a position (lines 321-344) *)

Definition instantTurnToPosition (ai : CharacterAI) (position : Vector3) : CharacterAI :=
  let positionSameHeight := Vec3.set_y position (vy (soPosition ai)) in
  set_soRotation ai (lookAt (soRotation ai) (soPosition ai) positionSameHeight).

Definition isAtPosition (ai : CharacterAI) (position : Vector3) : bool :=
  F32.ltb (Vec3_length (Vec3.sub (soPosition ai) position)) AT_POSITION_TOLERANCE.

Definition gotoPositionStraight (ai : CharacterAI) (position : Vector3) : bool * CharacterAI :=
  let ai := instantTurnToPosition ai position in
  let '(_, ai) := goForward ai in
  (isAtPosition ai position, ai).

(** *** GameWorld: the name cache, range queries and routes *)

(** The hierarchy below a scene object, as [getNumChildren], [getChild] and
    [getName] give it: the handle and name of the object and its children
    in index order. *)
Inductive SceneTree : Type :=
| SceneNode (nodeHandle : HSceneObject) (nodeName : string) (nodeChildren : list SceneTree).

Definition nodeHandle (t : SceneTree) : HSceneObject :=
  match t with SceneNode h _ _ => h end.

Definition nodeName (t : SceneTree) : string :=
  match t with SceneNode _ n _ => n end.

(** The lambda [visit] of fillFindByNameCache, on the cache it fills. *)
Fixpoint visit (parent : SceneTree) (cache : gmap string HSceneObject) {struct parent}
  : gmap string HSceneObject :=
  match parent with
  | SceneNode _ _ children =>
      (fix loop (rest : list SceneTree) (cache : gmap string HSceneObject) {struct rest}
         : gmap string HSceneObject :=
         match rest with
         | [] => cache
         | child :: rest' =>
             let name := nodeName child in
             let cache :=
               if negb (String.eqb name "") then <[name := nodeHandle child]> cache
               else cache in
             loop rest' (visit child cache)
         end) children cache
  end.

Definition fillFindByNameCache (w : GameWorld) (root : SceneTree) : GameWorld :=
  mkGameWorld (visit root ∅) (scene w).

(** What [visit] does to the cache for one object it meets. *)
Definition cacheStep (cache : gmap string HSceneObject) (entry : string * HSceneObject)
  : gmap string HSceneObject :=
  if negb (String.eqb (fst entry) "") then <[fst entry := snd entry]> cache else cache.

(** The objects below a scene object in the order [visit] meets them, each
    with its name. *)
Fixpoint descendants (t : SceneTree) : list (string * HSceneObject) :=
  match t with
  | SceneNode _ _ children =>
      List.flat_map (fun child => (nodeName child, nodeHandle child) :: descendants child)
        children
  end.

(** The loop of findCharactersInRange and of findItemsInRange over the
    handles of the world, with the position each one's scene object has. *)
Fixpoint collectInRange {H : Type} (positionOf : H -> Vector3) (rangeSq : float)
  (around : Vector3) (all : list H) (result : list H) : list H :=
  match all with
  | [] => result
  | c :: rest =>
      let result :=
        if F32.ltb (Vec3.squaredDistance (positionOf c) around) rangeSq
        then (result ++ [c])%list else result in
      collectInRange positionOf rangeSq around rest result
  end.

Definition findCharactersInRange {HCharacter : Type} (mAllCharacters : list HCharacter)
  (positionOf : HCharacter -> Vector3) (rangeInMeters : float) (around : Vector3)
  : list HCharacter :=
  let rangeSq := F32.mul rangeInMeters rangeInMeters in
  collectInRange positionOf rangeSq around mAllCharacters [].

Definition findItemsInRange {HItem : Type} (mAllItems : list HItem)
  (positionOf : HItem -> Vector3) (rangeInMeters : float) (around : Vector3)
  : list HItem :=
  let rangeSq := F32.mul rangeInMeters rangeInMeters in
  collectInRange positionOf rangeSq around mAllItems [].

(** One end of findWay(from, to) by name: the waypoint of that name, or the
    waypoint closest to the object of that name.  [inl] is an early return
    with the empty route. *)
Definition resolveWayEnd (w : GameWorld) (net : Waynet) (name : string)
  : (GameWorld + option HWaypoint * GameWorld) :=
  match findWaypoint net name with
  | Some waypoint => inr (Some waypoint, w)
  | None =>
      let '(offWaynet, w1) := findObjectByName w name in
      if negb (handleIsValid w1 offWaynet) then inl w1
      else
        match offWaynet with
        | None => inl w1
        | Some h => inr (findClosestWaypointTo net (objectPosition (scene w1) h), w1)
        end
  end.

Definition findWay (w : GameWorld) (net : Waynet) (from to : string)
  : list HWaypoint * GameWorld :=
  match resolveWayEnd w net from with
  | inl w1 => ([], w1)
  | inr (waypointFrom, w1) =>
      match resolveWayEnd w1 net to with
      | inl w2 => ([], w2)
      | inr (waypointTo, w2) =>
          match waypointFrom, waypointTo with
          | Some a, Some b => (waynetFindWay net a b, w2)
          | _, _ => ([], w2)
          end
      end
  end.

End MoreOfCharacterAI.

(** GameWorld::worldName(): the file name up to its first dot. *)
Fixpoint find_first_of (s : string) (c : ascii) : option nat :=
  match s with
  | EmptyString => None
  | String a rest =>
      if Ascii.eqb a c then Some 0%nat
      else option_map S (find_first_of rest c)
  end.

(** [s.substr(0, count)], [npos] being [None]. *)
Definition substr0 (s : string) (count : option nat) : string :=
  match count with
  | None => s
  | Some n => String.substring 0 n s
  end.

Definition worldName (mZenFile : string) : string :=
  substr0 mZenFile (find_first_of mZenFile ".").

(** ** Further instances and inputs *)

Module MoreTables.

Import Tables.

(** lookAt in the table engine: the rotation records the direction from the
    object to the target. *)
#[export] Instance look : SceneLookAt := {
  lookAt := fun q pos target => SetForward (Vec3.sub target pos) :: q;
}.

(** A waynet given by a list of named waypoints; a handle is an index, and
    a route is its two ends. *)
Fixpoint waypointIndex (name : string) (net : list (string * Vector3)) (i : nat) : option nat :=
  match net with
  | [] => None
  | (n, _) :: rest => if String.eqb n name then Some i else waypointIndex name rest (S i)
  end.

Fixpoint closestIndex (pos : Vector3) (net : list (string * Vector3)) (i : nat)
  (best : option (nat * float)) : option nat :=
  match net with
  | [] => option_map fst best
  | (_, p) :: rest =>
      let d := Vec3.squaredDistance p pos in
      let best' :=
        match best with
        | Some (j, dj) => if F32.ltb d dj then Some (i, d) else Some (j, dj)
        | None => Some (i, d)
        end in
      closestIndex pos rest (S i) best'
  end.

#[export] Instance waynet : WaynetPort := {
  Waynet := list (string * Vector3);
  HWaypoint := nat;
  findWaypoint := fun net name => waypointIndex name net 0;
  findClosestWaypointTo := fun net pos => closestIndex pos net 0 None;
  waynetFindWay := fun _ a b => [a; b];
}.

Definition roads : list (string * Vector3) :=
  [("WP_A", vec 0 0 0); ("WP_B", vec 10 0 0)].

(** A visual that is set up but has no clip at all and plays nothing. *)
Definition bare : TableVisual :=
  mkTableVisual true "" [] [] [] true false false Vec3.ZERO.

(** A world of five live objects and the hierarchy they form: the root, a
    waypoint with an unnamed child and a chest below it, and a second chest
    of the same name next to the waypoint. *)
Definition camp : GameWorld :=
  mkGameWorld ∅
    [mkSceneObject "root" false (vec 0 0 0) (vec 0 0 1);
     mkSceneObject "WP_START" false (vec 5 0 7) (vec 0 0 1);
     mkSceneObject "" false (vec 5 0 8) (vec 0 0 1);
     mkSceneObject "CHEST" false (vec 6 0 7) (vec 0 0 1);
     mkSceneObject "CHEST" false (vec 9 0 9) (vec 0 0 1)].

Definition campTree : SceneTree :=
  SceneNode 0%nat "root"
    [SceneNode 1%nat "WP_START" [SceneNode 2%nat "" []; SceneNode 3%nat "CHEST" []];
     SceneNode 4%nat "CHEST" []].

(** A camera a hair less than 45 meters from the origin, whose squared
    distance rounds to the float next above 2025. *)
Definition edgeCamera : Vector3 :=
  mkVector3 (S754_finite false 8630667 (-18)) (S754_finite false 12101082 (-19))
    (S754_finite false 10594240 (-19)).

Definition edge : TickInput := mkTickInput edgeCamera sixtieth.

(** Characters known by a number, each standing that many meters along the
    X axis. *)
Definition lineUp (c : nat) : Vector3 := vec (Z.of_nat c) 0 0.

End MoreTables.

(** ** Properties *)

Section Properties.

Context `{Naming : StateNaming} `{VC : VisualCharacter} `{Eng : Engine}.

Implicit Types (ai : CharacterAI) (input : TickInput) (anim : string).

(** *** What each step of a tick leaves alone *)

Lemma handlePhysicsActivation_fields ai cam :
  let ai' := handlePhysicsActivation ai cam in
  mTurnDirection ai' = mTurnDirection ai /\ soRotation ai' = soRotation ai
  /\ soPosition ai' = soPosition ai /\ portCalls ai' = portCalls ai
  /\ mIsInAir ai' = mIsInAir ai /\ mVisual ai' = mVisual ai
  /\ mIsStandingOnSolidGround ai' = mIsStandingOnSolidGround ai
  /\ mFallingVelocity ai' = mFallingVelocity ai.
Proof.
  unfold handlePhysicsActivation.
  destruct (mIsPhysicsActive ai);
    [destruct (shouldDisablePhysics ai cam) | destruct (shouldEnablePhysics ai cam)];
    cbn; repeat split.
Qed.

Lemma handleTurning_fields ai :
  let ai' := handleTurning ai in
  mIsPhysicsActive ai' = mIsPhysicsActive ai /\ soPosition ai' = soPosition ai
  /\ portCalls ai' = portCalls ai /\ mIsInAir ai' = mIsInAir ai
  /\ mVisual ai' = mVisual ai
  /\ mIsStandingOnSolidGround ai' = mIsStandingOnSolidGround ai
  /\ mFallingVelocity ai' = mFallingVelocity ai.
Proof.
  unfold handleTurning.
  destruct (F32.gtb _ TURN_EPSILON); cbn; repeat split.
Qed.

Lemma handleFallingAndFlying_fields ai dt :
  let ai' := handleFallingAndFlying ai dt in
  mIsPhysicsActive ai' = mIsPhysicsActive ai /\ soPosition ai' = soPosition ai
  /\ soRotation ai' = soRotation ai /\ portCalls ai' = portCalls ai
  /\ mVisual ai' = mVisual ai
  /\ mIsStandingOnSolidGround ai' = mIsStandingOnSolidGround ai
  /\ mIsInAir ai' = mIsInAir ai || isPlayingFlyingAnimation (mVisual ai).
Proof.
  unfold handleFallingAndFlying.
  destruct (isPlayingFlyingAnimation (mVisual ai)); cbn.
  - rewrite orb_true_r. repeat split.
  - rewrite orb_false_r. destruct (mIsInAir ai) eqn:E; cbn; rewrite ?E; repeat split.
Qed.

Lemma frameRootMotion_fields ai :
  let ai' := snd (frameRootMotion ai) in
  mIsPhysicsActive ai' = mIsPhysicsActive ai /\ soPosition ai' = soPosition ai
  /\ soRotation ai' = soRotation ai /\ portCalls ai' = portCalls ai
  /\ mIsInAir ai' = mIsInAir ai
  /\ mIsStandingOnSolidGround ai' = mIsStandingOnSolidGround ai.
Proof.
  unfold frameRootMotion.
  destruct (isPlayingIdleAnimation (mVisual ai)); cbn; [repeat split |].
  destruct (resolveFrameRootMotion (mVisual ai)); cbn; repeat split.
Qed.

(** The root motion does not depend on the fields the vertical dynamics
    write. *)
Lemma frameRootMotion_after_falling ai dt :
  fst (frameRootMotion (handleFallingAndFlying ai dt)) = fst (frameRootMotion ai).
Proof.
  unfold frameRootMotion.
  destruct (handleFallingAndFlying_fields ai dt) as (_ & _ & Hrot & _ & Hvis & _).
  rewrite Hvis, Hrot.
  destruct (isPlayingIdleAnimation (mVisual ai)); cbn; [reflexivity |].
  destruct (resolveFrameRootMotion (mVisual ai)); reflexivity.
Qed.

Lemma updatePhysics_fields ai rootMotion dt :
  let ai' := updatePhysics ai rootMotion dt in
  mIsPhysicsActive ai' = mIsPhysicsActive ai /\ soRotation ai' = soRotation ai.
Proof.
  unfold updatePhysics, doMove.
  destruct (needsToUpdatePhysics ai rootMotion); cbn; [| split; reflexivity].
  destruct (controllerMove _ _ _) as [[ctrl pos] flags]; cbn. split; reflexivity.
Qed.

(** A move is sent exactly when [needsToUpdatePhysics] says so; without it
    nothing changes. *)
Lemma updatePhysics_calls ai rootMotion dt :
  if needsToUpdatePhysics ai rootMotion
  then exists velocity,
      portCalls (updatePhysics ai rootMotion dt)
      = (portCalls ai ++ [CallMove velocity])%list
  else updatePhysics ai rootMotion dt = ai.
Proof.
  unfold updatePhysics, doMove.
  destruct (needsToUpdatePhysics ai rootMotion); [| reflexivity].
  destruct (controllerMove _ _ _) as [[ctrl pos] flags]; cbn. eexists. reflexivity.
Qed.

Lemma turn_speed_over_epsilon :
  F32.gtb (F32.abs TURN_SPEED_NORMAL) TURN_EPSILON = true
  /\ F32.gtb (F32.abs (F32.opp TURN_SPEED_NORMAL)) TURN_EPSILON = true
  /\ F32.gtb (F32.abs F32.zero) TURN_EPSILON = false.
Proof. repeat split; vm_compute; reflexivity. Qed.

Lemma handleTurning_rotation ai :
  soRotation (handleTurning ai) =
    match mTurnDirection ai with
    | TurnNone => soRotation ai
    | TurnLeft => rotateAxisAngle (soRotation ai) Vec3.UNIT_Y (F32.opp TURN_SPEED_NORMAL)
    | TurnRight => rotateAxisAngle (soRotation ai) Vec3.UNIT_Y TURN_SPEED_NORMAL
    end.
Proof.
  destruct turn_speed_over_epsilon as (Hr & Hl & Hn).
  unfold handleTurning.
  destruct (mTurnDirection ai); [rewrite Hn | rewrite Hl | rewrite Hr]; reflexivity.
Qed.

Lemma fixedUpdate_inactive ai input :
  mIsPhysicsActive (handlePhysicsActivation ai (cameraPosition input)) = false ->
  fixedUpdate ai input = handlePhysicsActivation ai (cameraPosition input).
Proof. intros H. unfold fixedUpdate. rewrite H. reflexivity. Qed.

Lemma fixedUpdate_active ai input :
  mIsPhysicsActive (handlePhysicsActivation ai (cameraPosition input)) = true ->
  fixedUpdate ai input =
    let ai1 := handleFallingAndFlying
                 (handleTurning (handlePhysicsActivation ai (cameraPosition input)))
                 (fixedFrameDelta input) in
    updatePhysics (snd (frameRootMotion ai1)) (fst (frameRootMotion ai1))
      (fixedFrameDelta input).
Proof.
  intros H. unfold fixedUpdate. rewrite H. cbn.
  destruct (frameRootMotion _). reflexivity.
Qed.

Lemma fixedUpdate_mIsPhysicsActive ai input :
  mIsPhysicsActive (fixedUpdate ai input)
  = mIsPhysicsActive (handlePhysicsActivation ai (cameraPosition input)).
Proof.
  destruct (mIsPhysicsActive (handlePhysicsActivation ai (cameraPosition input))) eqn:E.
  - rewrite (fixedUpdate_active _ _ E). cbn.
    rewrite (proj1 (updatePhysics_fields _ _ _)).
    rewrite (proj1 (frameRootMotion_fields _)).
    rewrite (proj1 (handleFallingAndFlying_fields _ _)).
    rewrite (proj1 (handleTurning_fields _)). exact E.
  - rewrite (fixedUpdate_inactive _ _ E). exact E.
Qed.

Lemma frameRootMotion_ext ai ai' :
  mVisual ai = mVisual ai' -> soRotation ai = soRotation ai' ->
  fst (frameRootMotion ai) = fst (frameRootMotion ai').
Proof.
  intros Hv Hr. unfold frameRootMotion. rewrite Hv, Hr.
  destruct (isPlayingIdleAnimation (mVisual ai')); cbn; [reflexivity |].
  destruct (resolveFrameRootMotion (mVisual ai')); reflexivity.
Qed.

(** The root motion of the tick, as the physics step receives it. *)
Lemma fixedUpdate_rootMotion ai cam dt :
  fst (frameRootMotion
         (handleFallingAndFlying (handleTurning (handlePhysicsActivation ai cam)) dt))
  = tickRootMotion ai.
Proof.
  rewrite frameRootMotion_after_falling. unfold tickRootMotion.
  destruct (handlePhysicsActivation_fields ai cam) as (Htd & Hrot & _ & _ & _ & Hvis & _).
  apply frameRootMotion_ext.
  - destruct (handleTurning_fields (handlePhysicsActivation ai cam))
      as (_ & _ & _ & _ & Hv & _).
    destruct (handleTurning_fields ai) as (_ & _ & _ & _ & Hv' & _).
    cbn in *. congruence.
  - rewrite !handleTurning_rotation. cbn in *. rewrite Htd, Hrot. reflexivity.
Qed.

(** What the physics step of an active tick starts from. *)
Lemma fixedUpdate_before_physics ai cam dt :
  let ai1 := snd (frameRootMotion
               (handleFallingAndFlying (handleTurning (handlePhysicsActivation ai cam)) dt)) in
  mIsInAir ai1 = mIsInAir ai || isPlayingFlyingAnimation (mVisual ai)
  /\ mIsStandingOnSolidGround ai1 = mIsStandingOnSolidGround ai
  /\ portCalls ai1 = portCalls ai
  /\ soPosition ai1 = soPosition ai.
Proof.
  cbn.
  destruct (frameRootMotion_fields
              (handleFallingAndFlying (handleTurning (handlePhysicsActivation ai cam)) dt))
    as (_ & Hp3 & _ & Hc3 & Ha3 & Hg3).
  destruct (handleFallingAndFlying_fields (handleTurning (handlePhysicsActivation ai cam)) dt)
    as (_ & Hp2 & _ & Hc2 & _ & Hg2 & Ha2).
  destruct (handleTurning_fields (handlePhysicsActivation ai cam))
    as (_ & Hp1 & Hc1 & Ha1 & Hv1 & Hg1 & _).
  destruct (handlePhysicsActivation_fields ai cam)
    as (_ & _ & Hp0 & Hc0 & Ha0 & Hv0 & Hg0 & _).
  cbn in *. repeat split; congruence.
Qed.

(** *** The motion integrator *)

(** C2, as the code has it: in a tick the character is rotated about the Y
    axis by the constant TURN_SPEED_NORMAL, negated for Left and as it is
    for Right, when physics is active after the activation step; the
    rotation is the same for every frame delta, and no rotation is applied
    for None or while physics is inactive. *)
Theorem fixedUpdate_turn_ignores_frame_delta ai cam dt :
  soRotation (fixedUpdate ai (mkTickInput cam dt)) =
    if mIsPhysicsActive (handlePhysicsActivation ai cam) then
      match mTurnDirection ai with
      | TurnNone => soRotation ai
      | TurnLeft => rotateAxisAngle (soRotation ai) Vec3.UNIT_Y (F32.opp TURN_SPEED_NORMAL)
      | TurnRight => rotateAxisAngle (soRotation ai) Vec3.UNIT_Y TURN_SPEED_NORMAL
      end
    else soRotation ai.
Proof.
  destruct (handlePhysicsActivation_fields ai cam) as (Htd & Hrot & _).
  destruct (mIsPhysicsActive (handlePhysicsActivation ai cam)) eqn:E.
  - rewrite (fixedUpdate_active ai (mkTickInput cam dt) E). cbn.
    rewrite (proj2 (updatePhysics_fields _ _ _)).
    destruct (frameRootMotion_fields
                (handleFallingAndFlying (handleTurning (handlePhysicsActivation ai cam)) dt))
      as (_ & _ & -> & _).
    destruct (handleFallingAndFlying_fields (handleTurning (handlePhysicsActivation ai cam)) dt)
      as (_ & _ & -> & _).
    rewrite handleTurning_rotation. cbn in Htd, Hrot. rewrite Htd, Hrot. reflexivity.
  - rewrite (fixedUpdate_inactive ai (mkTickInput cam dt) E). exact Hrot.
Qed.

(** As long as the test of its state fails at every tick, the activation
    state stays what it is. *)
Lemma activation_stays_while_tests_fail ai (inputs : list TickInput) :
  (mIsPhysicsActive ai = true ->
   staysWithinDeactivateRange ai inputs ->
   Forall (fun a => mIsPhysicsActive a = true) (fixedUpdates ai inputs))
  /\ (mIsPhysicsActive ai = false ->
      staysOutsideActivateRange ai inputs ->
      Forall (fun a => mIsPhysicsActive a = false) (fixedUpdates ai inputs)).
Proof.
  split; revert ai; induction inputs as [| input rest IH]; intros ai Hact Hrun;
    cbn; constructor; destruct Hrun as [Hnow Hrest].
  - rewrite fixedUpdate_mIsPhysicsActive. unfold handlePhysicsActivation.
    rewrite Hact, Hnow. exact Hact.
  - apply IH; [| exact Hrest].
    rewrite fixedUpdate_mIsPhysicsActive. unfold handlePhysicsActivation.
    rewrite Hact, Hnow. exact Hact.
  - rewrite fixedUpdate_mIsPhysicsActive. unfold handlePhysicsActivation.
    rewrite Hact, Hnow. exact Hact.
  - apply IH; [| exact Hrest].
    rewrite fixedUpdate_mIsPhysicsActive. unfold handlePhysicsActivation.
    rewrite Hact, Hnow. exact Hact.
Qed.

Lemma squaredDistanceNeverAbove_tests ai (inputs : list TickInput) :
  squaredDistanceNeverAbove
    (F32.mul DEACTIVATE_PHYSICS_RANGE_METERS DEACTIVATE_PHYSICS_RANGE_METERS) ai inputs ->
  staysWithinDeactivateRange ai inputs.
Proof.
  revert ai. induction inputs as [| input rest IH]; intros ai; cbn; [trivial |].
  intros [Hnow Hrest]. split; [exact Hnow | apply IH, Hrest].
Qed.

Lemma squaredDistanceNeverBelow_tests ai (inputs : list TickInput) :
  squaredDistanceNeverBelow
    (F32.mul ACTIVATE_PHYSICS_RANGE_METERS ACTIVATE_PHYSICS_RANGE_METERS) ai inputs ->
  staysOutsideActivateRange ai inputs.
Proof.
  revert ai. induction inputs as [| input rest IH]; intros ai; cbn; [trivial |].
  intros [Hnow Hrest]. split; [exact Hnow | apply IH, Hrest].
Qed.

(** C3, amended: from Active, as long as the squared distance between the
    camera and the character, as the tick measures it in single precision,
    is never above the square of the deactivation range (45 * 45), physics
    is active after every tick; from Inactive, as long as that squared
    distance is never below the square of the activation range (40 * 40),
    physics is inactive after every tick. *)
Theorem activation_hysteresis_no_flicker ai (inputs : list TickInput) :
  (mIsPhysicsActive ai = true ->
   squaredDistanceNeverAbove
     (F32.mul DEACTIVATE_PHYSICS_RANGE_METERS DEACTIVATE_PHYSICS_RANGE_METERS) ai inputs ->
   Forall (fun a => mIsPhysicsActive a = true) (fixedUpdates ai inputs))
  /\ (mIsPhysicsActive ai = false ->
      squaredDistanceNeverBelow
        (F32.mul ACTIVATE_PHYSICS_RANGE_METERS ACTIVATE_PHYSICS_RANGE_METERS) ai inputs ->
      Forall (fun a => mIsPhysicsActive a = false) (fixedUpdates ai inputs)).
Proof.
  split; intros Hstate Hrun.
  - apply (proj1 (activation_stays_while_tests_fail ai inputs) Hstate).
    apply squaredDistanceNeverAbove_tests, Hrun.
  - apply (proj2 (activation_stays_while_tests_fail ai inputs) Hstate).
    apply squaredDistanceNeverBelow_tests, Hrun.
Qed.

(** C5, amended: when no flying animation is playing and the character is
    airborne with fall velocity v, the vertical-dynamics update of a tick
    with frame delta dt leaves the fall velocity at v + FALLING_ACCELERATION_Y
    * dt, in the single-precision arithmetic of the code; when the
    character is not airborne the fall velocity is reset to 0; and while a
    flying animation is playing the fall velocity is 0 as well and the
    character is marked airborne. *)
Theorem fall_velocity_update ai dt :
  (isPlayingFlyingAnimation (mVisual ai) = false ->
   mIsInAir ai = true ->
   mFallingVelocity (handleFallingAndFlying ai dt)
   = F32.add (mFallingVelocity ai) (F32.mul FALLING_ACCELERATION_Y dt))
  /\ (mIsInAir ai = false ->
      mFallingVelocity (handleFallingAndFlying ai dt) = F32.zero)
  /\ (isPlayingFlyingAnimation (mVisual ai) = true ->
      mFallingVelocity (handleFallingAndFlying ai dt) = F32.zero
      /\ mIsInAir (handleFallingAndFlying ai dt) = true).
Proof.
  unfold handleFallingAndFlying. repeat split.
  - intros -> ->. reflexivity.
  - intros ->. destruct (isPlayingFlyingAnimation (mVisual ai)); reflexivity.
  - rewrite H. reflexivity.
  - rewrite H. reflexivity.
Qed.

(** The vertical dynamics are the only step of a tick that writes the fall
    velocity. *)
Lemma fixedUpdate_mFallingVelocity ai input :
  mIsPhysicsActive (handlePhysicsActivation ai (cameraPosition input)) = true ->
  mFallingVelocity (fixedUpdate ai input)
  = mFallingVelocity
      (handleFallingAndFlying
         (handleTurning (handlePhysicsActivation ai (cameraPosition input)))
         (fixedFrameDelta input)).
Proof.
  intros E. rewrite (fixedUpdate_active _ _ E). cbn.
  set (ai1 := handleFallingAndFlying _ _).
  unfold updatePhysics, doMove, frameRootMotion.
  destruct (isPlayingIdleAnimation (mVisual ai1)); cbn.
  - destruct (needsToUpdatePhysics _ _); [| reflexivity].
    destruct (controllerMove _ _ _) as [[c p] f]; reflexivity.
  - destruct (resolveFrameRootMotion (mVisual ai1)) as [rm v]; cbn.
    destruct (needsToUpdatePhysics _ _); [| reflexivity].
    destruct (controllerMove _ _ _) as [[c p] f]; reflexivity.
Qed.

(** C6, amended: in a tick that leaves physics inactive no move is sent
    and the position stays.  In a tick with physics active: when the
    character is not airborne, no flying animation is playing, it stands
    on solid ground and the squared length of the computed root motion is
    not above zero, no move is sent and the position stays; and a move is
    sent whenever the character is airborne, or a flying animation is
    playing, or it is not on solid ground, or the squared length of the
    root motion is above zero. *)
Theorem physics_move_when_needed ai input :
  (mIsPhysicsActive (handlePhysicsActivation ai (cameraPosition input)) = false ->
   tickCalls ai input = [] /\ soPosition (fixedUpdate ai input) = soPosition ai)
  /\ (mIsPhysicsActive (handlePhysicsActivation ai (cameraPosition input)) = true ->
      (mIsInAir ai = false ->
       isPlayingFlyingAnimation (mVisual ai) = false ->
       mIsStandingOnSolidGround ai = true ->
       F32.gtb (Vec3.squaredLength (tickRootMotion ai)) F32.zero = false ->
       tickCalls ai input = [] /\ soPosition (fixedUpdate ai input) = soPosition ai)
      /\ (mIsInAir ai = true \/ isPlayingFlyingAnimation (mVisual ai) = true
          \/ mIsStandingOnSolidGround ai = false
          \/ F32.gtb (Vec3.squaredLength (tickRootMotion ai)) F32.zero = true ->
          exists velocity, tickCalls ai input = [CallMove velocity])).
Proof.
  unfold tickCalls. split.
  - intros E. rewrite (fixedUpdate_inactive _ _ E).
    destruct (handlePhysicsActivation_fields ai (cameraPosition input))
      as (_ & _ & Hp & Hc & _).
    cbn in Hp, Hc. rewrite Hp, Hc, drop_all. split; reflexivity.
  - intros E. rewrite (fixedUpdate_active _ _ E). cbn.
    pose proof (fixedUpdate_rootMotion ai (cameraPosition input) (fixedFrameDelta input)) as Hrm.
    destruct (fixedUpdate_before_physics ai (cameraPosition input) (fixedFrameDelta input))
      as (Hair & Hgnd & Hc & Hp).
    cbn in Hair, Hgnd, Hc, Hp.
    set (ai1 := handleFallingAndFlying _ _) in *.
    pose proof (updatePhysics_calls (snd (frameRootMotion ai1)) (fst (frameRootMotion ai1))
                  (fixedFrameDelta input)) as Hup.
    assert (Hneed : needsToUpdatePhysics (snd (frameRootMotion ai1)) (fst (frameRootMotion ai1))
                    = (mIsInAir ai || isPlayingFlyingAnimation (mVisual ai))
                      || negb (mIsStandingOnSolidGround ai)
                      || F32.gtb (Vec3.squaredLength (tickRootMotion ai)) F32.zero).
    { unfold needsToUpdatePhysics. rewrite Hair, Hgnd, Hrm.
      destruct (mIsInAir ai || isPlayingFlyingAnimation (mVisual ai)); [reflexivity |].
      destruct (mIsStandingOnSolidGround ai); cbn; [| reflexivity].
      destruct (F32.gtb _ F32.zero); reflexivity. }
    rewrite Hneed in Hup. split.
    + intros Ha Hf Hg Hz. rewrite Ha, Hf, Hg, Hz in Hup. cbn in Hup.
      rewrite Hup, Hc, Hp, drop_all. split; reflexivity.
    + intros Hany.
      assert (Htrue : (mIsInAir ai || isPlayingFlyingAnimation (mVisual ai))
                      || negb (mIsStandingOnSolidGround ai)
                      || F32.gtb (Vec3.squaredLength (tickRootMotion ai)) F32.zero = true).
      { destruct Hany as [-> | [-> | [-> | ->]]]; cbn;
          rewrite ?orb_true_r; reflexivity. }
      rewrite Htrue in Hup. destruct Hup as [velocity Hup].
      exists velocity. rewrite Hup, Hc. apply drop_app_length.
Qed.

(** *** The locomotion state machine *)

(** [tryPlayTransitionAnimationTo] by cases. *)
Lemma tryPlayTransitionAnimationTo_cases ai anim :
  tryPlayTransitionAnimationTo ai anim =
    if negb (hasVisual (mVisual ai)) then (false, ai)
    else if alreadyInTarget ai anim then (true, ai)
    else match resolveTransitionClip ai anim with
         | None => (false, ai)
         | Some c =>
             if isAnimationPlaying (mVisual ai) c then (true, ai)
             else (true, doPlayAnimationClip ai c)
         end.
Proof.
  unfold tryPlayTransitionAnimationTo, alreadyInTarget, resolveTransitionClip, clipPlayingNow.
  destruct (hasVisual (mVisual ai)); cbn; [| reflexivity].
  case_bool_decide as Hsame;
    [rewrite decide_True by exact Hsame | rewrite decide_False by exact Hsame];
    [reflexivity |].
  destruct (findAnimationClip (mVisual ai) (findAnimationToTransitionTo (mVisual ai) anim))
    as [c |].
  - destruct (isAnimationPlaying (mVisual ai) c); reflexivity.
  - destruct (isStanding ai); [| reflexivity].
    destruct (findAnimationClip (mVisual ai)
                (findAnimationToTransitionFromTo (mVisual ai) "S_STAND" anim)) as [c |];
      [| reflexivity].
    destruct (isAnimationPlaying (mVisual ai) c); reflexivity.
Qed.

(** A rejected transition changes nothing. *)
Lemma tryPlayTransitionAnimationTo_rejected ai anim :
  fst (tryPlayTransitionAnimationTo ai anim) = false ->
  tryPlayTransitionAnimationTo ai anim = (false, ai).
Proof.
  rewrite tryPlayTransitionAnimationTo_cases.
  destruct (hasVisual (mVisual ai)); cbn; [| reflexivity].
  destruct (alreadyInTarget ai anim); cbn; [discriminate |].
  destruct (resolveTransitionClip ai anim) as [c |]; [| reflexivity].
  destruct (isAnimationPlaying (mVisual ai) c); cbn; discriminate.
Qed.

(** C1, as the code has it: a changeWalkMode that returns failure leaves
    the component as it was; a changeWeaponMode that returns failure leaves
    it as it was when the raw target state has no clip, but when the
    visual exists, the transition is rejected and the raw target state
    does have a clip, that clip is played and the weapon mode is changed
    to the requested one although failure is returned. *)
Theorem changeWeaponMode_failure_commits_mode ai :
  (forall walkMode,
      fst (changeWalkMode ai walkMode) = false ->
      snd (changeWalkMode ai walkMode) = ai)
  /\ (forall mode,
         fst (changeWeaponMode ai mode) = false ->
         findAnimationClip (mVisual ai)
           (constructStateAnimationName mode (mWalkMode ai) "") = None ->
         snd (changeWeaponMode ai mode) = ai)
  /\ (forall mode c,
         hasVisual (mVisual ai) = true ->
         fst (tryPlayTransitionAnimationTo ai
                (constructStateAnimationName mode (mWalkMode ai) "")) = false ->
         findAnimationClip (mVisual ai)
           (constructStateAnimationName mode (mWalkMode ai) "") = Some c ->
         changeWeaponMode ai mode
         = (false, set_mWeaponMode (doPlayAnimationClip ai c) mode)).
Proof.
  repeat split.
  - intros walkMode. unfold changeWalkMode.
    destruct (tryPlayTransitionAnimationTo ai _) as [ok ai1] eqn:E; cbn.
    intros ->. apply (f_equal snd) in E as Hs.
    rewrite tryPlayTransitionAnimationTo_rejected in Hs by (rewrite E; reflexivity).
    cbn in Hs. congruence.
  - intros mode. unfold changeWeaponMode.
    destruct (hasVisual (mVisual ai)); cbn; [| discriminate].
    destruct (tryPlayTransitionAnimationTo ai _) as [ok ai1] eqn:E; cbn.
    intros -> Hnone. cbn.
    pose proof (tryPlayTransitionAnimationTo_rejected ai _ ltac:(rewrite E; reflexivity)) as Hr.
    rewrite E in Hr. injection Hr as ->. rewrite Hnone. reflexivity.
  - intros mode c Hvis Hrej Hclip. unfold changeWeaponMode.
    rewrite Hvis. cbn.
    rewrite (tryPlayTransitionAnimationTo_rejected _ _ Hrej). cbn.
    rewrite Hclip. reflexivity.
Qed.

(** C7, amended: while the character has no visual, changeWeaponMode
    returns success and adopts the requested weapon mode, changing nothing
    else; changeWalkMode returns failure and changes nothing. *)
Theorem mode_change_without_visual ai :
  hasVisual (mVisual ai) = false ->
  (forall mode, changeWeaponMode ai mode = (true, set_mWeaponMode ai mode))
  /\ (forall walkMode, changeWalkMode ai walkMode = (false, ai)).
Proof.
  intros Hvis. split.
  - intros mode. unfold changeWeaponMode. rewrite Hvis. reflexivity.
  - intros walkMode. unfold changeWalkMode.
    rewrite tryPlayTransitionAnimationTo_cases, Hvis. reflexivity.
Qed.

(** C8, amended: jump returns failure and changes nothing whenever the
    character is airborne or a state switch is disallowed.  Otherwise it
    requests the transition to S_JUMP: without a visual, or when no clip
    resolves for it (and the one playing is not already its target), it
    returns failure and changes nothing; when a clip resolves it returns
    success, and the clip is played unless it is already the target being
    played. *)
Theorem jump_outcome ai :
  (mIsInAir ai = true \/ isStateSwitchAllowed ai = false -> jump ai = (false, ai))
  /\ (mIsInAir ai = false -> isStateSwitchAllowed ai = true ->
      (hasVisual (mVisual ai) = false -> jump ai = (false, ai))
      /\ (hasVisual (mVisual ai) = true ->
          alreadyInTarget ai "S_JUMP" = false ->
          resolveTransitionClip ai "S_JUMP" = None ->
          jump ai = (false, ai))
      /\ (forall c,
             hasVisual (mVisual ai) = true ->
             resolveTransitionClip ai "S_JUMP" = Some c ->
             jump ai =
               (true,
                if alreadyInTarget ai "S_JUMP" || isAnimationPlaying (mVisual ai) c
                then ai else doPlayAnimationClip ai c))).
Proof.
  unfold jump. split.
  - intros [Hair | Hsw].
    + rewrite Hair. destruct (isStateSwitchAllowed ai); reflexivity.
    + rewrite Hsw. reflexivity.
  - intros Hair Hsw. rewrite Hair, Hsw. cbn.
    rewrite tryPlayTransitionAnimationTo_cases. repeat split.
    + intros ->. reflexivity.
    + intros -> -> ->. reflexivity.
    + intros c -> ->. cbn.
      destruct (alreadyInTarget ai "S_JUMP"); cbn; [reflexivity |].
      destruct (isAnimationPlaying (mVisual ai) c); reflexivity.
Qed.

(** C9, amended: when no backward state clip exists for the current modes,
    goBackward returns failure and changes nothing if a state switch is
    disallowed; otherwise it requests the one-shot T_JUMPB transition:
    without a visual, or when no clip resolves for it (and the one playing
    is not already its target), it returns failure and changes nothing;
    when a clip resolves it returns success, and the clip is played unless
    it is already the target being played. *)
Theorem goBackward_fallback ai :
  doesStateExist ai "BL" = false ->
  (isStateSwitchAllowed ai = false -> goBackward ai = (false, ai))
  /\ (isStateSwitchAllowed ai = true ->
      (hasVisual (mVisual ai) = false -> goBackward ai = (false, ai))
      /\ (hasVisual (mVisual ai) = true ->
          alreadyInTarget ai "T_JUMPB" = false ->
          resolveTransitionClip ai "T_JUMPB" = None ->
          goBackward ai = (false, ai))
      /\ (forall c,
             hasVisual (mVisual ai) = true ->
             resolveTransitionClip ai "T_JUMPB" = Some c ->
             goBackward ai =
               (true,
                if alreadyInTarget ai "T_JUMPB" || isAnimationPlaying (mVisual ai) c
                then ai else doPlayAnimationClip ai c))).
Proof.
  intros Hbl. unfold goBackward. rewrite Hbl. split.
  - intros ->. reflexivity.
  - intros ->. cbn. rewrite tryPlayTransitionAnimationTo_cases. repeat split.
    + intros ->. reflexivity.
    + intros -> -> ->. reflexivity.
    + intros c -> ->. cbn.
      destruct (alreadyInTarget ai "T_JUMPB"); cbn; [reflexivity |].
      destruct (isAnimationPlaying (mVisual ai) c); reflexivity.
Qed.

(** C10: with a visual assigned, a transition request whose transition
    clip is the clip playing now, or whose resolved clip is reported as
    being played, returns success and leaves the component as it was: no
    play command is sent and the animation is not restarted.  The same
    holds for a state request that goes through the legality gate. *)
Theorem transition_to_playing_clip_is_idempotent ai anim :
  hasVisual (mVisual ai) = true ->
  alreadyInTarget ai anim = true
  \/ (exists c, resolveTransitionClip ai anim = Some c
                /\ isAnimationPlaying (mVisual ai) c = true) ->
  tryPlayTransitionAnimationTo ai anim = (true, ai)
  /\ (forall state,
         anim = constructStateAnimationName (mWeaponMode ai) (mWalkMode ai) state ->
         isStateSwitchAllowed ai = true ->
         tryTransitionToState ai state = (true, ai)).
Proof.
  intros Hvis Hplaying.
  assert (Hplay : tryPlayTransitionAnimationTo ai anim = (true, ai)).
  { rewrite tryPlayTransitionAnimationTo_cases, Hvis. cbn.
    destruct Hplaying as [-> | (c & -> & ->)]; [reflexivity |].
    destruct (alreadyInTarget ai anim); reflexivity. }
  split; [exact Hplay |].
  intros state -> Hsw. unfold tryTransitionToState. rewrite Hsw. exact Hplay.
Qed.

(** *** Teleport *)

Lemma findObjectByName_scene (w : GameWorld) name :
  scene (snd (findObjectByName w name)) = scene w.
Proof.
  unfold findObjectByName.
  destruct (mSceneObjectsByNameCached w !! name) as [h |];
    [destruct (isDestroyed (scene w) h); cbn |]; try reflexivity.
  all: destruct (findChild (scene w) name) as [h' |]; cbn; try reflexivity.
  all: destruct (isDestroyed (scene w) h'); reflexivity.
Qed.

(** A lookup that finds nothing leaves the cache alone. *)
Lemma findObjectByName_miss (w : GameWorld) name :
  handleIsValid w (fst (findObjectByName w name)) = false ->
  snd (findObjectByName w name) = w.
Proof.
  unfold findObjectByName.
  destruct (mSceneObjectsByNameCached w !! name) as [h |];
    [destruct (isDestroyed (scene w) h) eqn:Hd; cbn |]; try reflexivity.
  all: destruct (handleIsValid w (findChild (scene w) name)) eqn:Hv;
    [| reflexivity].
  all: destruct (findChild (scene w) name) as [h' |]; cbn; [| reflexivity].
  all: cbn in Hv; intros Hv'; rewrite Hv' in Hv; discriminate.
Qed.

(** C4: for a name the world's lookup finds no object for, teleport
    returns the component and the world as they were (it is a total
    function with no error outcome); for a name that is found, the
    position becomes the target's position and the rotation is set by
    setForward from the target's forward vector with its Y component set
    to zero and then normalized. *)
Theorem teleport_miss_noop_hit_moves ai (w : GameWorld) waypoint :
  (handleIsValid w (fst (findObjectByName w waypoint)) = false ->
   teleport ai w waypoint = (ai, w))
  /\ (forall h,
         fst (findObjectByName w waypoint) = Some h ->
         isDestroyed (scene w) h = false ->
         soPosition (fst (teleport ai w waypoint)) = objectPosition (scene w) h
         /\ soRotation (fst (teleport ai w waypoint))
            = setForward (soRotation ai)
                (normalize (Vec3.set_y (objectForward (scene w) h) F32.zero))).
Proof.
  unfold teleport. split.
  - intros Hmiss. pose proof (findObjectByName_miss w waypoint Hmiss) as Hw.
    destruct (findObjectByName w waypoint) as [so w1]. cbn in *. subst w1.
    rewrite Hmiss. reflexivity.
  - intros h Hhit Hlive. pose proof (findObjectByName_scene w waypoint) as Hs.
    destruct (findObjectByName w waypoint) as [so w1]. cbn in *. subst so.
    cbn. rewrite Hs, Hlive. cbn. split; reflexivity.
Qed.

End Properties.

(** ** The statements on concrete inputs *)

Import Tables.

(** The fallback of changeWeaponMode: the human has S_FISTRUN but no
    transition clip towards it. *)
Lemma changeWeaponMode_failure_commits_mode_witness :
  mWeaponMode (standing human) = NoWeapon
  /\ fst (changeWeaponMode (standing human) Fist) = false
  /\ mWeaponMode (snd (changeWeaponMode (standing human) Fist)) = Fist.
Proof.
  assert (Hcommit : changeWeaponMode (standing human) Fist
                    = (false, set_mWeaponMode
                                (doPlayAnimationClip (standing human) "S_FISTRUN") Fist)).
  { apply (proj2 (proj2 (changeWeaponMode_failure_commits_mode (standing human))));
      vm_compute; reflexivity. }
  rewrite Hcommit. split; [| split]; reflexivity.
Defined.

(** At 60 Hz a left turn is the rotation by -0.05 radians, which is not the
    rotation by -(0.05 / 60) radians. *)
Lemma turn_left_at_60Hz :
  soRotation (fixedUpdate (set_mTurnDirection (standing human) TurnLeft) near)
  = [RotateAxisAngle Vec3.UNIT_Y (F32.opp TURN_SPEED_NORMAL)]
  /\ F32.opp TURN_SPEED_NORMAL <> F32.opp (F32.mul TURN_SPEED_NORMAL (fixedFrameDelta near)).
Proof. split; [vm_compute; reflexivity | vm_compute; discriminate]. Qed.

(** With the camera between the two ranges an active character stays active
    and an inactive one stays inactive. *)
Lemma activation_hysteresis_no_flicker_witness :
  Forall (fun a => mIsPhysicsActive a = true) (fixedUpdates (standing human) [band; near; band])
  /\ Forall (fun a => mIsPhysicsActive a = false) (fixedUpdates (asleep human) [band; far; band]).
Proof.
  split.
  - apply (proj1 (activation_hysteresis_no_flicker (standing human) [band; near; band]));
      [reflexivity | vm_compute; repeat split].
  - apply (proj2 (activation_hysteresis_no_flicker (asleep human) [band; far; band]));
      [reflexivity | vm_compute; repeat split].
Defined.

(** C3 as stated fails: with the camera at a point whose exact distance
    from the character is below 45 meters, the squared distance the tick
    computes rounds to the float next above 2025, and the tick switches
    the physics of an active character off. *)
Lemma activation_exact_distance_counterexample :
  ~ (forall (ai : CharacterAI) (inputs : list TickInput),
        mIsPhysicsActive ai = true ->
        exactDistanceNeverExceeds 45 ai inputs ->
        Forall (fun a => mIsPhysicsActive a = true) (fixedUpdates ai inputs)).
Proof.
  intros Hclaim.
  assert (Hwithin : exactDistanceNeverExceeds 45 (standing human) [MoreTables.edge]).
  { split; [| exact I]. vm_compute. split; intros Habove; discriminate Habove. }
  specialize (Hclaim (standing human) [MoreTables.edge] eq_refl Hwithin).
  inversion Hclaim as [| a rest Hfirst _]. vm_compute in Hfirst. discriminate Hfirst.
Qed.

(** Teleporting to a name that does not exist, to a destroyed object and to
    a waypoint. *)
Lemma teleport_miss_noop_hit_moves_witness :
  teleport (standing human) world "NOWHERE" = (standing human, world)
  /\ teleport (standing human) world "OLD_CAMP" = (standing human, world)
  /\ soPosition (fst (teleport (standing human) world "WP_START")) = vec 5 0 7
  /\ soRotation (fst (teleport (standing human) world "WP_START"))
     = [SetForward (vec 0 0 1)].
Proof.
  split; [| split; [| split]].
  - apply (proj1 (teleport_miss_noop_hit_moves (standing human) world "NOWHERE")).
    vm_compute. reflexivity.
  - apply (proj1 (teleport_miss_noop_hit_moves (standing human) world "OLD_CAMP")).
    vm_compute. reflexivity.
  - assert (Hhit : fst (findObjectByName world "WP_START") = Some 1%nat)
      by (vm_compute; reflexivity).
    rewrite (proj1 (proj2 (teleport_miss_noop_hit_moves (standing human) world "WP_START")
                      1%nat Hhit eq_refl)).
    reflexivity.
  - assert (Hhit : fst (findObjectByName world "WP_START") = Some 1%nat)
      by (vm_compute; reflexivity).
    rewrite (proj2 (proj2 (teleport_miss_noop_hit_moves (standing human) world "WP_START")
                      1%nat Hhit eq_refl)).
    vm_compute. reflexivity.
Defined.

(** One tick of free fall at 60 Hz, a grounded character, and a character in
    a jump. *)
Lemma fall_velocity_update_witness :
  mFallingVelocity (handleFallingAndFlying (falling human) sixtieth)
  = F32.add (F32.opp F32.one) (F32.mul FALLING_ACCELERATION_Y sixtieth)
  /\ mFallingVelocity (handleFallingAndFlying (standing human) sixtieth) = F32.zero
  /\ mFallingVelocity (handleFallingAndFlying (falling jumping) sixtieth) = F32.zero.
Proof.
  split; [| split].
  - apply (proj1 (fall_velocity_update (falling human) sixtieth)); reflexivity.
  - apply (proj1 (proj2 (fall_velocity_update (standing human) sixtieth))); reflexivity.
  - apply (proj2 (proj2 (fall_velocity_update (falling jumping) sixtieth))); reflexivity.
Defined.

(** C5 as stated fails: airborne in a jump, the fall velocity after the
    update is 0 and not v + FALLING_ACCELERATION_Y * dt. *)
Lemma fall_velocity_flying_counterexample :
  ~ (forall (ai : CharacterAI) (dt : float),
        mIsInAir ai = true ->
        mFallingVelocity (handleFallingAndFlying ai dt)
        = F32.add (mFallingVelocity ai) (F32.mul FALLING_ACCELERATION_Y dt)).
Proof.
  intros Hclaim. specialize (Hclaim (falling jumping) sixtieth eq_refl).
  vm_compute in Hclaim. discriminate Hclaim.
Qed.

(** A tick of the sleeping character, of the idle standing one, and of the
    falling one. *)
Lemma physics_move_when_needed_witness :
  tickCalls (asleep human) far = []
  /\ tickCalls (standing human) near = []
  /\ soPosition (fixedUpdate (standing human) near) = soPosition (standing human)
  /\ exists velocity, tickCalls (falling human) near = [CallMove velocity].
Proof.
  split; [| split; [| split]].
  - apply (proj1 (physics_move_when_needed (asleep human) far)). vm_compute. reflexivity.
  - assert (Hactive : mIsPhysicsActive
                         (handlePhysicsActivation (standing human) (cameraPosition near))
                       = true) by (vm_compute; reflexivity).
    apply (proj1 (proj2 (physics_move_when_needed (standing human) near) Hactive));
      vm_compute; reflexivity.
  - assert (Hactive : mIsPhysicsActive
                         (handlePhysicsActivation (standing human) (cameraPosition near))
                       = true) by (vm_compute; reflexivity).
    apply (proj1 (proj2 (physics_move_when_needed (standing human) near) Hactive));
      vm_compute; reflexivity.
  - assert (Hactive : mIsPhysicsActive
                         (handlePhysicsActivation (falling human) (cameraPosition near))
                       = true) by (vm_compute; reflexivity).
    apply (proj2 (proj2 (physics_move_when_needed (falling human) near) Hactive)).
    left. reflexivity.
Defined.

(** C6 as stated fails: an airborne character whose physics is inactive,
    the camera being far away, is sent no move. *)
Lemma physics_move_inactive_counterexample :
  ~ (forall (ai : CharacterAI) (input : TickInput),
        (mIsInAir ai = false ->
         mIsStandingOnSolidGround ai = true ->
         F32.gtb (Vec3.squaredLength (tickRootMotion ai)) F32.zero = false ->
         tickCalls ai input = [] /\ soPosition (fixedUpdate ai input) = soPosition ai)
        /\ (mIsInAir ai = true \/ mIsStandingOnSolidGround ai = false
            \/ F32.gtb (Vec3.squaredLength (tickRootMotion ai)) F32.zero = true ->
            exists velocity, tickCalls ai input = [CallMove velocity])).
Proof.
  intros Hclaim.
  destruct (proj2 (Hclaim (fallingAsleep human) far) (or_introl eq_refl)) as [velocity Hmove].
  vm_compute in Hmove. discriminate Hmove.
Qed.

(** Before the visual is set up: to fist mode, and to walking. *)
Lemma mode_change_without_visual_witness :
  changeWeaponMode (standing noVisual) Fist
  = (true, set_mWeaponMode (standing noVisual) Fist)
  /\ changeWalkMode (standing noVisual) Walk = (false, standing noVisual).
Proof.
  split.
  - apply (proj1 (mode_change_without_visual (standing noVisual) eq_refl)).
  - apply (proj2 (mode_change_without_visual (standing noVisual) eq_refl)).
Defined.

(** C7 as stated fails: without a visual changeWalkMode returns failure and
    the character keeps running. *)
Lemma changeWalkMode_without_visual_counterexample :
  ~ (forall (ai : CharacterAI) (walkMode : WalkMode),
        hasVisual (mVisual ai) = false ->
        fst (changeWalkMode ai walkMode) = true
        /\ mWalkMode (snd (changeWalkMode ai walkMode)) = walkMode).
Proof.
  intros Hclaim. destruct (Hclaim (standing noVisual) Walk eq_refl) as [Hok _].
  vm_compute in Hok. discriminate Hok.
Qed.

(** Jumping: in the air, from standing with the human's clips, and with a
    creature that has no clip for it. *)
Lemma jump_outcome_witness :
  jump (falling human) = (false, falling human)
  /\ jump (standing human) = (true, doPlayAnimationClip (standing human) "T_STAND_2_JUMP")
  /\ jump (standing meatbug) = (false, standing meatbug).
Proof.
  assert (Hhuman : isStateSwitchAllowed (standing human) = true) by (vm_compute; reflexivity).
  assert (Hbug : isStateSwitchAllowed (standing meatbug) = true) by (vm_compute; reflexivity).
  split; [| split].
  - apply (proj1 (jump_outcome (falling human))). left. reflexivity.
  - apply (proj2 (proj2 (proj2 (jump_outcome (standing human)) (eq_refl false) Hhuman))
             "T_STAND_2_JUMP"); vm_compute; reflexivity.
  - apply (proj1 (proj2 (proj2 (jump_outcome (standing meatbug)) (eq_refl false) Hbug)));
      vm_compute; reflexivity.
Defined.

(** C8 as stated fails: on the ground, with the state switch allowed, the
    creature without a jump clip gets failure. *)
Lemma jump_without_clip_counterexample :
  ~ (forall ai : CharacterAI,
        (mIsInAir ai = true \/ isStateSwitchAllowed ai = false -> jump ai = (false, ai))
        /\ (mIsInAir ai = false -> isStateSwitchAllowed ai = true ->
            fst (jump ai) = true
            /\ exists clip,
                portCalls (snd (jump ai)) = (portCalls ai ++ [CallPlayAnimationClip clip])%list)).
Proof.
  intros Hclaim.
  assert (Hbug : isStateSwitchAllowed (standing meatbug) = true) by (vm_compute; reflexivity).
  destruct (proj2 (Hclaim (standing meatbug)) (eq_refl false) Hbug) as [Hok _].
  vm_compute in Hok. discriminate Hok.
Qed.

(** Going backward without a backward state: during the back jump, from
    standing, and with a creature that lacks the clip. *)
Lemma goBackward_fallback_witness :
  goBackward (standing jumpingBack) = (false, standing jumpingBack)
  /\ goBackward (standing human) = (true, doPlayAnimationClip (standing human) "T_JUMPB")
  /\ goBackward (standing meatbug) = (false, standing meatbug).
Proof.
  assert (Hback : doesStateExist (standing jumpingBack) "BL" = false)
    by (vm_compute; reflexivity).
  assert (Hhuman : doesStateExist (standing human) "BL" = false) by (vm_compute; reflexivity).
  assert (Hbug : doesStateExist (standing meatbug) "BL" = false) by (vm_compute; reflexivity).
  split; [| split].
  - apply (proj1 (goBackward_fallback (standing jumpingBack) Hback)).
    vm_compute. reflexivity.
  - assert (Hsw : isStateSwitchAllowed (standing human) = true) by (vm_compute; reflexivity).
    apply (proj2 (proj2 (proj2 (goBackward_fallback (standing human) Hhuman) Hsw))
             "T_JUMPB"); vm_compute; reflexivity.
  - assert (Hsw : isStateSwitchAllowed (standing meatbug) = true) by (vm_compute; reflexivity).
    apply (proj1 (proj2 (proj2 (goBackward_fallback (standing meatbug) Hbug) Hsw)));
      vm_compute; reflexivity.
Defined.

(** C9 as stated fails: while the back jump plays no state switch is
    allowed, and a second request to go backward returns failure. *)
Lemma goBackward_disallowed_counterexample :
  ~ (forall ai : CharacterAI,
        doesStateExist ai "BL" = false -> fst (goBackward ai) = true).
Proof.
  intros Hclaim.
  assert (Hback : doesStateExist (standing jumpingBack) "BL" = false)
    by (vm_compute; reflexivity).
  specialize (Hclaim (standing jumpingBack) Hback).
  vm_compute in Hclaim. discriminate Hclaim.
Qed.

(** Asking the standing human for the state it is in, and for the run while
    its clip is reported as playing. *)
Lemma transition_to_playing_clip_is_idempotent_witness :
  tryPlayTransitionAnimationTo (standing human) "S_RUN" = (true, standing human)
  /\ tryTransitionToState (standing human) "" = (true, standing human).
Proof.
  assert (Hsame : alreadyInTarget (standing human) "S_RUN" = true) by (vm_compute; reflexivity).
  split.
  - apply (proj1 (transition_to_playing_clip_is_idempotent (standing human) "S_RUN"
                    eq_refl (or_introl Hsame))).
  - apply (proj2 (transition_to_playing_clip_is_idempotent (standing human) "S_RUN"
                    eq_refl (or_introl Hsame)) ""); reflexivity.
Defined.

(** ** Further properties *)

Section MoreProperties.

Context `{Naming : StateNaming} `{VC : VisualCharacter} `{Eng : Engine}.
Context `{Look : !SceneLookAt} `{Net : WaynetPort}.

Implicit Types (ai : CharacterAI) (input : TickInput) (anim : string).

(** *** Physics activation and the tick *)

(** No number is both above the squared deactivation range and below the
    squared activation range, NaN and infinities included. *)
Lemma squared_ranges_exclusive (d : float) :
  F32.gtb d (F32.mul DEACTIVATE_PHYSICS_RANGE_METERS DEACTIVATE_PHYSICS_RANGE_METERS) = true ->
  F32.ltb d (F32.mul ACTIVATE_PHYSICS_RANGE_METERS ACTIVATE_PHYSICS_RANGE_METERS) = false.
Proof.
  replace (F32.mul DEACTIVATE_PHYSICS_RANGE_METERS DEACTIVATE_PHYSICS_RANGE_METERS)
    with (S754_finite false 16588800 (-13)) by (vm_compute; reflexivity).
  replace (F32.mul ACTIVATE_PHYSICS_RANGE_METERS ACTIVATE_PHYSICS_RANGE_METERS)
    with (S754_finite false 13107200 (-13)) by (vm_compute; reflexivity).
  unfold F32.gtb, F32.ltb, SFltb, SFcompare.
  destruct d as [s | s | | [|] m e]; try (destruct s); try congruence.
  rewrite (Z.compare_antisym e (-13)).
  destruct (e ?= -13)%Z; cbv [CompOpp]; try congruence.
  change (PosDef.Pos.compare_cont Eq 16588800 m) with (Pos.compare 16588800 m).
  change (PosDef.Pos.compare_cont Eq m 13107200) with (Pos.compare m 13107200).
  destruct (Pos.compare_spec 16588800 m); try congruence.
  destruct (Pos.compare_spec m 13107200); try congruence. lia.
Qed.

Lemma shouldDisable_excludes_enable ai (cam : Vector3) :
  shouldDisablePhysics ai cam = true -> shouldEnablePhysics ai cam = false.
Proof. unfold shouldDisablePhysics, shouldEnablePhysics. apply squared_ranges_exclusive. Qed.

(** X1: whatever the positions of camera and character, the test that
    switches physics off and the test that switches it on never hold
    together. *)
Theorem activation_tests_exclusive ai (cam : Vector3) :
  shouldDisablePhysics ai cam && shouldEnablePhysics ai cam = false.
Proof.
  destruct (shouldDisablePhysics ai cam) eqn:Hfar; [| reflexivity].
  rewrite (shouldDisable_excludes_enable _ _ Hfar). reflexivity.
Qed.

Lemma shouldDisablePhysics_flag ai cam b :
  shouldDisablePhysics (set_mIsPhysicsActive ai b) cam = shouldDisablePhysics ai cam.
Proof. reflexivity. Qed.

Lemma shouldEnablePhysics_flag ai cam b :
  shouldEnablePhysics (set_mIsPhysicsActive ai b) cam = shouldEnablePhysics ai cam.
Proof. reflexivity. Qed.

(** X2: with camera and character where they are, deciding the activation a
    second time changes nothing: the state reached after one decision is
    stable, at every distance. *)
Theorem handlePhysicsActivation_settles ai (cam : Vector3) :
  handlePhysicsActivation (handlePhysicsActivation ai cam) cam
  = handlePhysicsActivation ai cam.
Proof.
  pose proof (shouldDisable_excludes_enable ai cam) as Hex.
  unfold handlePhysicsActivation at 2 3.
  destruct (mIsPhysicsActive ai) eqn:Hact.
  - destruct (shouldDisablePhysics ai cam) eqn:Hd.
    + unfold handlePhysicsActivation, deactivatePhysics. cbn.
      rewrite shouldEnablePhysics_flag, (Hex eq_refl). reflexivity.
    + unfold handlePhysicsActivation. rewrite Hact, Hd. reflexivity.
  - destruct (shouldEnablePhysics ai cam) eqn:He.
    + unfold handlePhysicsActivation, activatePhysics. cbn.
      rewrite shouldDisablePhysics_flag.
      destruct (shouldDisablePhysics ai cam); [discriminate (Hex eq_refl) | reflexivity].
    + unfold handlePhysicsActivation. rewrite Hact, He. reflexivity.
Qed.

Lemma handlePhysicsActivation_inactive ai cam :
  mIsPhysicsActive (handlePhysicsActivation ai cam) = false ->
  handlePhysicsActivation ai cam = set_mIsPhysicsActive ai false.
Proof.
  unfold handlePhysicsActivation.
  destruct ai as [wm wp td act air gnd fv vis ctl pos rot calls]; cbn.
  destruct act; cbn.
  - destruct (shouldDisablePhysics _ cam); cbn; [reflexivity | discriminate].
  - destruct (shouldEnablePhysics _ cam); cbn; [discriminate | reflexivity].
Qed.

(** X3: a tick after which physics is inactive has changed nothing but that
    flag: no turning, no fall, no root motion taken from the animation, no
    move. *)
Theorem tick_ending_inactive_is_frozen ai input :
  mIsPhysicsActive (fixedUpdate ai input) = false ->
  fixedUpdate ai input = set_mIsPhysicsActive ai false.
Proof.
  rewrite fixedUpdate_mIsPhysicsActive. intros Hoff.
  rewrite (fixedUpdate_inactive _ _ Hoff).
  apply handlePhysicsActivation_inactive, Hoff.
Qed.

(** X4: after every tick that ran with physics active, the character is
    airborne exactly when it is not standing on solid ground, whatever the
    two flags were before. *)
Theorem tick_airborne_iff_not_grounded ai input :
  mIsPhysicsActive (fixedUpdate ai input) = true ->
  mIsInAir (fixedUpdate ai input) = negb (mIsStandingOnSolidGround (fixedUpdate ai input)).
Proof.
  rewrite fixedUpdate_mIsPhysicsActive. intros Hon.
  rewrite (fixedUpdate_active _ _ Hon). cbn.
  set (ai1 := handleFallingAndFlying _ _).
  set (ai2 := snd (frameRootMotion ai1)). set (rm := fst (frameRootMotion ai1)).
  unfold updatePhysics, doMove.
  destruct (needsToUpdatePhysics ai2 rm) eqn:Hneed.
  - destruct (controllerMove _ _ _) as [[ctrl pos] flags]. reflexivity.
  - unfold needsToUpdatePhysics in Hneed.
    destruct (mIsInAir ai2); [discriminate |].
    destruct (mIsStandingOnSolidGround ai2); [reflexivity | discriminate].
Qed.

Lemma handleFallingAndFlying_velocity_ext ai ai' dt :
  mVisual ai = mVisual ai' -> mIsInAir ai = mIsInAir ai' ->
  mFallingVelocity ai = mFallingVelocity ai' ->
  mFallingVelocity (handleFallingAndFlying ai dt)
  = mFallingVelocity (handleFallingAndFlying ai' dt).
Proof.
  intros Hv Ha Hf. unfold handleFallingAndFlying. rewrite Hv, Ha.
  destruct (isPlayingFlyingAnimation (mVisual ai')); [reflexivity |].
  destruct (mIsInAir ai'); cbn; [rewrite Hf |]; reflexivity.
Qed.

Lemma frameRootMotion_velocity ai :
  mFallingVelocity (snd (frameRootMotion ai)) = mFallingVelocity ai.
Proof.
  unfold frameRootMotion.
  destruct (isPlayingIdleAnimation (mVisual ai)); cbn; [reflexivity |].
  destruct (resolveFrameRootMotion (mVisual ai)); reflexivity.
Qed.

(** X5: in a tick with physics active in which a move is due, exactly one
    move is sent, and its velocity is the root motion of the tick with, on
    the Y axis, the fall velocity of this tick times the frame delta added
    when the character is airborne (or a flying animation plays), and
    DOWNWARDS_VELOCITY_WHILE_WALKING times the frame delta otherwise. *)
Theorem tick_move_velocity ai input :
  mIsPhysicsActive (handlePhysicsActivation ai (cameraPosition input)) = true ->
  (mIsInAir ai || isPlayingFlyingAnimation (mVisual ai))
  || negb (mIsStandingOnSolidGround ai)
  || F32.gtb (Vec3.squaredLength (tickRootMotion ai)) F32.zero = true ->
  tickCalls ai input =
    [CallMove
       (Vec3.add_y (tickRootMotion ai)
          (F32.mul
             (if mIsInAir ai || isPlayingFlyingAnimation (mVisual ai)
              then mFallingVelocity (handleFallingAndFlying ai (fixedFrameDelta input))
              else DOWNWARDS_VELOCITY_WHILE_WALKING)
             (fixedFrameDelta input)))].
Proof.
  intros Hon Hdue. unfold tickCalls. rewrite (fixedUpdate_active _ _ Hon). cbn.
  pose proof (fixedUpdate_rootMotion ai (cameraPosition input) (fixedFrameDelta input)) as Hrm.
  destruct (fixedUpdate_before_physics ai (cameraPosition input) (fixedFrameDelta input))
    as (Hair & Hgnd & Hc & Hp).
  cbn in Hair, Hgnd, Hc, Hp.
  assert (Hvel : mFallingVelocity
                   (snd (frameRootMotion
                           (handleFallingAndFlying
                              (handleTurning (handlePhysicsActivation ai (cameraPosition input)))
                              (fixedFrameDelta input))))
                 = mFallingVelocity (handleFallingAndFlying ai (fixedFrameDelta input))).
  { rewrite frameRootMotion_velocity. apply handleFallingAndFlying_velocity_ext.
    - destruct (handleTurning_fields (handlePhysicsActivation ai (cameraPosition input)))
        as (_ & _ & _ & _ & Hv & _).
      destruct (handlePhysicsActivation_fields ai (cameraPosition input))
        as (_ & _ & _ & _ & _ & Hv0 & _). cbn in *. congruence.
    - destruct (handleTurning_fields (handlePhysicsActivation ai (cameraPosition input)))
        as (_ & _ & _ & Ha & _).
      destruct (handlePhysicsActivation_fields ai (cameraPosition input))
        as (_ & _ & _ & _ & Ha0 & _). cbn in *. congruence.
    - destruct (handleTurning_fields (handlePhysicsActivation ai (cameraPosition input)))
        as (_ & _ & _ & _ & _ & _ & Hf).
      destruct (handlePhysicsActivation_fields ai (cameraPosition input))
        as (_ & _ & _ & _ & _ & _ & _ & Hf0). cbn in *. congruence. }
  set (ai1 := handleFallingAndFlying _ _) in *.
  unfold updatePhysics, doMove, needsToUpdatePhysics.
  rewrite Hair, Hgnd, Hrm, Hvel.
  assert (Hneed : (if mIsInAir ai || isPlayingFlyingAnimation (mVisual ai) then true
                   else if negb (mIsStandingOnSolidGround ai) then true
                   else if F32.gtb (Vec3.squaredLength (tickRootMotion ai)) F32.zero
                        then true else false) = true).
  { destruct (mIsInAir ai || isPlayingFlyingAnimation (mVisual ai)); [reflexivity |].
    destruct (mIsStandingOnSolidGround ai); cbn in *; [| reflexivity].
    rewrite Hdue. reflexivity. }
  rewrite Hneed.
  destruct (mIsInAir ai || isPlayingFlyingAnimation (mVisual ai));
    destruct (controllerMove _ _ _) as [[ctrl pos] flags]; cbn;
    rewrite Hc; apply drop_app_length.
Qed.

Lemma fixedUpdate_locomotion_state ai input :
  mWalkMode (fixedUpdate ai input) = mWalkMode ai
  /\ mWeaponMode (fixedUpdate ai input) = mWeaponMode ai
  /\ mTurnDirection (fixedUpdate ai input) = mTurnDirection ai.
Proof.
  assert (Hact : forall a cam,
             (mWalkMode (handlePhysicsActivation a cam), mWeaponMode (handlePhysicsActivation a cam),
              mTurnDirection (handlePhysicsActivation a cam))
             = (mWalkMode a, mWeaponMode a, mTurnDirection a)).
  { intros a cam. unfold handlePhysicsActivation.
    destruct (mIsPhysicsActive a);
      [destruct (shouldDisablePhysics a cam) | destruct (shouldEnablePhysics a cam)];
      reflexivity. }
  assert (Hturn : forall a,
             (mWalkMode (handleTurning a), mWeaponMode (handleTurning a),
              mTurnDirection (handleTurning a))
             = (mWalkMode a, mWeaponMode a, mTurnDirection a)).
  { intros a. unfold handleTurning. destruct (F32.gtb _ TURN_EPSILON); reflexivity. }
  assert (Hfall : forall a dt,
             (mWalkMode (handleFallingAndFlying a dt), mWeaponMode (handleFallingAndFlying a dt),
              mTurnDirection (handleFallingAndFlying a dt))
             = (mWalkMode a, mWeaponMode a, mTurnDirection a)).
  { intros a dt. unfold handleFallingAndFlying.
    destruct (isPlayingFlyingAnimation (mVisual a)); [reflexivity |].
    destruct (mIsInAir a); reflexivity. }
  assert (Hroot : forall a,
             (mWalkMode (snd (frameRootMotion a)), mWeaponMode (snd (frameRootMotion a)),
              mTurnDirection (snd (frameRootMotion a)))
             = (mWalkMode a, mWeaponMode a, mTurnDirection a)).
  { intros a. unfold frameRootMotion.
    destruct (isPlayingIdleAnimation (mVisual a)); cbn; [reflexivity |].
    destruct (resolveFrameRootMotion (mVisual a)); reflexivity. }
  assert (Hphys : forall a rm dt,
             (mWalkMode (updatePhysics a rm dt), mWeaponMode (updatePhysics a rm dt),
              mTurnDirection (updatePhysics a rm dt))
             = (mWalkMode a, mWeaponMode a, mTurnDirection a)).
  { intros a rm dt. unfold updatePhysics, doMove.
    destruct (needsToUpdatePhysics a rm); [| reflexivity].
    destruct (controllerMove _ _ _) as [[ctrl pos] flags]; reflexivity. }
  assert (Hall : (mWalkMode (fixedUpdate ai input), mWeaponMode (fixedUpdate ai input),
                  mTurnDirection (fixedUpdate ai input))
                 = (mWalkMode ai, mWeaponMode ai, mTurnDirection ai)).
  { destruct (mIsPhysicsActive (handlePhysicsActivation ai (cameraPosition input))) eqn:E.
    - rewrite (fixedUpdate_active _ _ E). cbn zeta.
      rewrite Hphys, Hroot, Hfall, Hturn. apply Hact.
    - rewrite (fixedUpdate_inactive _ _ E). apply Hact. }
  injection Hall as -> -> ->. repeat split.
Qed.

(** X6: the ticks never change the walk mode, the weapon mode or the turn
    direction: along any run of ticks the three are what they were at the
    start, so a turn that was requested goes on until it is stopped. *)
Theorem ticks_keep_locomotion_state ai (inputs : list TickInput) :
  Forall (fun a => mWalkMode a = mWalkMode ai
                   /\ mWeaponMode a = mWeaponMode ai
                   /\ mTurnDirection a = mTurnDirection ai)
    (fixedUpdates ai inputs).
Proof.
  revert ai. induction inputs as [| input rest IH]; intros ai; cbn; constructor.
  - apply fixedUpdate_locomotion_state.
  - destruct (fixedUpdate_locomotion_state ai input) as (Hw & Hp & Ht).
    rewrite <- Hw, <- Hp, <- Ht. apply IH.
Qed.

Lemma fixedUpdate_rotation_of_turning ai input :
  soRotation (fixedUpdate ai input) =
    if mIsPhysicsActive (handlePhysicsActivation ai (cameraPosition input))
    then soRotation (handleTurning ai) else soRotation ai.
Proof.
  destruct (handlePhysicsActivation_fields ai (cameraPosition input)) as (Htd & Hrot & _).
  destruct (mIsPhysicsActive (handlePhysicsActivation ai (cameraPosition input))) eqn:E.
  - rewrite (fixedUpdate_active _ _ E). cbn.
    rewrite (proj2 (updatePhysics_fields _ _ _)).
    destruct (frameRootMotion_fields
                (handleFallingAndFlying
                   (handleTurning (handlePhysicsActivation ai (cameraPosition input)))
                   (fixedFrameDelta input)))
      as (_ & _ & -> & _).
    destruct (handleFallingAndFlying_fields
                (handleTurning (handlePhysicsActivation ai (cameraPosition input)))
                (fixedFrameDelta input))
      as (_ & _ & -> & _).
    rewrite !handleTurning_rotation. cbn in Htd, Hrot. rewrite Htd, Hrot. reflexivity.
  - rewrite (fixedUpdate_inactive _ _ E). exact Hrot.
Qed.

(** X7: the rotation a tick applies does not depend on the weapon mode or on
    the walk mode: TURN_SPEED_MULTIPLICATOR_WITH_WEAPON is not used, an
    armed character turns as fast as an unarmed one. *)
Theorem tick_turn_ignores_modes ai input (weapon : WeaponMode) (walk : WalkMode) :
  soRotation (fixedUpdate (set_mWalkMode (set_mWeaponMode ai weapon) walk) input)
  = soRotation (fixedUpdate ai input).
Proof.
  rewrite !fixedUpdate_rotation_of_turning, !handleTurning_rotation.
  replace (mIsPhysicsActive
             (handlePhysicsActivation (set_mWalkMode (set_mWeaponMode ai weapon) walk)
                (cameraPosition input)))
    with (mIsPhysicsActive (handlePhysicsActivation ai (cameraPosition input)));
    [reflexivity |].
  unfold handlePhysicsActivation. cbn.
  change (shouldDisablePhysics (set_mWalkMode (set_mWeaponMode ai weapon) walk))
    with (shouldDisablePhysics ai).
  change (shouldEnablePhysics (set_mWalkMode (set_mWeaponMode ai weapon) walk))
    with (shouldEnablePhysics ai).
  destruct (mIsPhysicsActive ai);
    [destruct (shouldDisablePhysics ai _) | destruct (shouldEnablePhysics ai _)]; reflexivity.
Qed.

(** *** Movement requests, mode changes and toggles *)

Lemma tryPlayTransitionAnimationTo_outcome ai anim :
  requestOutcome ai (tryPlayTransitionAnimationTo ai anim).
Proof.
  unfold requestOutcome. rewrite tryPlayTransitionAnimationTo_cases.
  destruct (hasVisual (mVisual ai)) eqn:Hvis; cbn; [| left; reflexivity].
  destruct (alreadyInTarget ai anim); [right; left; reflexivity |].
  destruct (resolveTransitionClip ai anim) as [c |] eqn:Hres; [| left; reflexivity].
  destruct (isAnimationPlaying (mVisual ai) c) eqn:Hplay; [right; left; reflexivity |].
  right; right.
  unfold resolveTransitionClip in Hres.
  destruct (findAnimationClip (mVisual ai) (findAnimationToTransitionTo (mVisual ai) anim))
    as [c' |] eqn:Hdirect.
  - injection Hres as ->. eauto 10.
  - destruct (isStanding ai); [| discriminate]. eauto 10.
Qed.

Lemma tryTransitionToState_outcome ai state :
  requestOutcome ai (tryTransitionToState ai state).
Proof.
  unfold tryTransitionToState.
  destruct (isStateSwitchAllowed ai); cbn;
    [apply tryPlayTransitionAnimationTo_outcome | left; reflexivity].
Qed.

(** X8: each of goForward, goBackward, strafeLeft, strafeRight, stopMoving
    and jump either rejects and changes nothing, or accepts and changes
    nothing, or accepts and plays exactly one clip, one the visual has and
    does not report as playing; so none of them touches the modes, the turn
    direction, the physics fields or the transform, and a rejection leaves
    the component as it was. *)
Theorem movement_requests_outcome ai :
  requestOutcome ai (goForward ai)
  /\ requestOutcome ai (goBackward ai)
  /\ requestOutcome ai (strafeLeft ai)
  /\ requestOutcome ai (strafeRight ai)
  /\ requestOutcome ai (stopMoving ai)
  /\ requestOutcome ai (jump ai).
Proof.
  repeat split.
  - apply tryTransitionToState_outcome.
  - unfold goBackward. destruct (doesStateExist ai "BL");
      [apply tryTransitionToState_outcome |].
    destruct (isStateSwitchAllowed ai); cbn;
      [apply tryPlayTransitionAnimationTo_outcome | left; reflexivity].
  - unfold strafeLeft. destruct (isStateSwitchAllowed ai); cbn; [| left; reflexivity].
    destruct (mWalkMode ai); apply tryPlayTransitionAnimationTo_outcome.
  - unfold strafeRight. destruct (isStateSwitchAllowed ai); cbn; [| left; reflexivity].
    destruct (mWalkMode ai); apply tryPlayTransitionAnimationTo_outcome.
  - unfold stopMoving.
    destruct (tryTransitionToState_outcome ai "") as [-> | [-> | (n & c & Hv & Hc & Hp & ->)]].
    + destruct (tryPlayTransitionAnimationTo_outcome ai "S_STAND")
        as [-> | [-> | (n & c & Hv & Hc & Hp & ->)]].
      * left; reflexivity.
      * right; left; reflexivity.
      * right; right. eauto 10.
    + right; left; reflexivity.
    + right; right. eauto 10.
  - unfold jump. destruct (isStateSwitchAllowed ai); cbn; [| left; reflexivity].
    destruct (mIsInAir ai); [left; reflexivity |].
    apply tryPlayTransitionAnimationTo_outcome.
Qed.

(** X9: while a state switch is disallowed, goForward, goBackward,
    strafeLeft, strafeRight and jump are rejected and change nothing;
    stopMoving is not held back: it does what the transition to S_STAND
    does. *)
Theorem closed_gate_rejects_requests ai :
  isStateSwitchAllowed ai = false ->
  goForward ai = (false, ai)
  /\ goBackward ai = (false, ai)
  /\ strafeLeft ai = (false, ai)
  /\ strafeRight ai = (false, ai)
  /\ jump ai = (false, ai)
  /\ stopMoving ai = tryPlayTransitionAnimationTo ai "S_STAND".
Proof.
  intros Hgate.
  assert (Hstate : forall state, tryTransitionToState ai state = (false, ai)).
  { intros state. unfold tryTransitionToState. rewrite Hgate. reflexivity. }
  unfold goForward, goBackward, strafeLeft, strafeRight, jump, stopMoving.
  rewrite !Hstate, Hgate. cbn.
  repeat split; try reflexivity.
  - destruct (doesStateExist ai "BL"); reflexivity.
  - destruct (tryPlayTransitionAnimationTo ai "S_STAND") as [[|] ai']; reflexivity.
Qed.

(** X10: a character without a visual gets every movement request
    rejected, with nothing changed. *)
Theorem no_visual_rejects_requests ai :
  hasVisual (mVisual ai) = false ->
  goForward ai = (false, ai)
  /\ goBackward ai = (false, ai)
  /\ strafeLeft ai = (false, ai)
  /\ strafeRight ai = (false, ai)
  /\ stopMoving ai = (false, ai)
  /\ jump ai = (false, ai).
Proof.
  intros Hvis.
  assert (Hplay : forall anim, tryPlayTransitionAnimationTo ai anim = (false, ai)).
  { intros anim. rewrite tryPlayTransitionAnimationTo_cases, Hvis. reflexivity. }
  assert (Hstate : forall state, tryTransitionToState ai state = (false, ai)).
  { intros state. unfold tryTransitionToState.
    destruct (isStateSwitchAllowed ai); cbn; [apply Hplay | reflexivity]. }
  unfold goForward, goBackward, strafeLeft, strafeRight, jump, stopMoving.
  rewrite !Hstate. cbn. rewrite !Hplay.
  repeat split; try reflexivity.
  - destruct (doesStateExist ai "BL"); [reflexivity |].
    destruct (isStateSwitchAllowed ai); reflexivity.
  - destruct (isStateSwitchAllowed ai); cbn; [| reflexivity].
    destruct (mWalkMode ai); reflexivity.
  - destruct (isStateSwitchAllowed ai); cbn; [| reflexivity].
    destruct (mWalkMode ai); reflexivity.
  - destruct (isStateSwitchAllowed ai); cbn; [| reflexivity].
    destruct (mIsInAir ai); reflexivity.
Qed.

Lemma requestOutcome_modes ai (r : bool * CharacterAI) :
  requestOutcome ai r ->
  mWalkMode (snd r) = mWalkMode ai /\ mWeaponMode (snd r) = mWeaponMode ai.
Proof.
  intros [-> | [-> | (n & c & _ & _ & _ & ->)]]; split; reflexivity.
Qed.

Lemma changeWalkMode_modes ai (walkMode : WalkMode) :
  mWeaponMode (snd (changeWalkMode ai walkMode)) = mWeaponMode ai
  /\ mWalkMode (snd (changeWalkMode ai walkMode))
     = if fst (changeWalkMode ai walkMode) then walkMode else mWalkMode ai.
Proof.
  unfold changeWalkMode.
  pose proof (requestOutcome_modes ai _
                (tryPlayTransitionAnimationTo_outcome ai
                   (constructStateAnimationName (mWeaponMode ai) walkMode ""))) as [Hw Hp].
  destruct (tryPlayTransitionAnimationTo ai _) as [[|] ai1]; cbn in *;
    split; first [assumption | reflexivity].
Qed.

Lemma changeWeaponMode_modes ai (mode : WeaponMode) :
  mWalkMode (snd (changeWeaponMode ai mode)) = mWalkMode ai
  /\ (mWeaponMode (snd (changeWeaponMode ai mode)) = mWeaponMode ai
      \/ mWeaponMode (snd (changeWeaponMode ai mode)) = mode).
Proof.
  unfold changeWeaponMode.
  destruct (hasVisual (mVisual ai)); cbn; [| split; [reflexivity | right; reflexivity]].
  pose proof (requestOutcome_modes ai _
                (tryPlayTransitionAnimationTo_outcome ai
                   (constructStateAnimationName mode (mWalkMode ai) ""))) as [Hw Hp].
  destruct (tryPlayTransitionAnimationTo ai _) as [[|] ai1]; cbn in *.
  - split; [assumption | right; reflexivity].
  - destruct (findAnimationClip (mVisual ai1) _); cbn.
    + split; [assumption | right; reflexivity].
    + split; [assumption | left; assumption].
Qed.

(** X11: changeWalkMode never changes the weapon mode, and the walk mode
    after it is the requested one on success and the old one on failure;
    changeWeaponMode never changes the walk mode, and the weapon mode after
    it is the old one or the requested one. *)
Theorem mode_changes_are_separate ai (walkMode : WalkMode) (mode : WeaponMode) :
  (mWeaponMode (snd (changeWalkMode ai walkMode)) = mWeaponMode ai
   /\ mWalkMode (snd (changeWalkMode ai walkMode))
      = if fst (changeWalkMode ai walkMode) then walkMode else mWalkMode ai)
  /\ (mWalkMode (snd (changeWeaponMode ai mode)) = mWalkMode ai
      /\ (mWeaponMode (snd (changeWeaponMode ai mode)) = mWeaponMode ai
          \/ mWeaponMode (snd (changeWeaponMode ai mode)) = mode)).
Proof. split; [apply changeWalkMode_modes | apply changeWeaponMode_modes]. Qed.

(** X12: toggling walking never puts a character into sneaking, and
    toggling sneaking never puts it into walking (leaving the sneak goes to
    running); neither changes the weapon mode. *)
Theorem toggles_never_enter ai :
  (mWalkMode (tryToggleWalking ai) = Sneak -> mWalkMode ai = Sneak)
  /\ (mWalkMode (tryToggleSneaking ai) = Walk -> mWalkMode ai = Walk)
  /\ mWeaponMode (tryToggleWalking ai) = mWeaponMode ai
  /\ mWeaponMode (tryToggleSneaking ai) = mWeaponMode ai.
Proof.
  unfold tryToggleWalking, tryToggleSneaking.
  destruct (mWalkMode ai) eqn:Hmode; repeat split;
    try apply changeWalkMode_modes;
    try (intros Hafter;
         match type of Hafter with
         | mWalkMode (snd (changeWalkMode ai ?m)) = _ =>
             rewrite (proj2 (changeWalkMode_modes ai m)) in Hafter;
             destruct (fst (changeWalkMode ai m)); congruence
         end).
Qed.

(** X13: before the visual is set up, tryToggleMeleeWeapon draws the fists
    from no weapon and puts every other weapon away; toggling twice gives
    the component back when it started with no weapon or with fists. *)
Theorem melee_toggle_without_visual ai :
  hasVisual (mVisual ai) = false ->
  mWeaponMode (tryToggleMeleeWeapon ai)
  = (if decide (mWeaponMode ai = NoWeapon) then Fist else NoWeapon)
  /\ (mWeaponMode ai = NoWeapon \/ mWeaponMode ai = Fist ->
      tryToggleMeleeWeapon (tryToggleMeleeWeapon ai) = ai).
Proof.
  intros Hvis.
  assert (Hchange : forall a mode, hasVisual (mVisual a) = false ->
                                   snd (changeWeaponMode a mode) = set_mWeaponMode a mode).
  { intros a mode Ha. unfold changeWeaponMode. rewrite Ha. reflexivity. }
  split.
  - unfold tryToggleMeleeWeapon.
    destruct (mWeaponMode ai); rewrite Hchange by exact Hvis; reflexivity.
  - intros Hmode. destruct ai as [wm wp td act air gnd fv vis ctl pos rot calls].
    cbn in Hvis, Hmode. unfold tryToggleMeleeWeapon.
    destruct Hmode as [-> | ->]; cbn [mWeaponMode];
      rewrite Hchange by exact Hvis; cbn [mWeaponMode set_mWeaponMode];
      rewrite Hchange by exact Hvis; reflexivity.
Qed.

(** *** Going to a position *)

Lemma sub_self_finite (x : float) : isFinite x = true -> F32.sub x x = S754_zero false.
Proof.
  destruct x as [s | s | | s m e]; try discriminate; intros _.
  - destruct s; reflexivity.
  - unfold F32.sub, SFsub. rewrite Z.sub_diag. reflexivity.
Qed.

Lemma sub_self_not_finite (x : float) : isFinite x = false -> F32.sub x x = S754_nan.
Proof.
  destruct x as [s | s | | s m e]; try discriminate; intros _; [destruct s |]; reflexivity.
Qed.

Lemma add_nan_r (x : float) : F32.add x S754_nan = S754_nan.
Proof. destruct x; reflexivity. Qed.

(** X14: the arrival test at the character's own position holds exactly
    when the three coordinates of the position are finite: with a NaN or an
    infinite coordinate the character is at no position, not even its own. *)
Theorem isAtPosition_own_position ai :
  isAtPosition ai (soPosition ai) = isFiniteVector (soPosition ai).
Proof.
  unfold isAtPosition, isFiniteVector, Vec3_length, Vec3.squaredLength, Vec3.sub.
  destruct (soPosition ai) as [x y z]. cbn [vx vy vz].
  destruct (isFinite x) eqn:Hx; [rewrite (sub_self_finite x Hx) |
                                 rewrite (sub_self_not_finite x Hx); reflexivity].
  destruct (isFinite y) eqn:Hy; [rewrite (sub_self_finite y Hy) |
                                 rewrite (sub_self_not_finite y Hy); reflexivity].
  destruct (isFinite z) eqn:Hz; [rewrite (sub_self_finite z Hz) |
                                 rewrite (sub_self_not_finite z Hz)].
  - vm_compute. reflexivity.
  - vm_compute. reflexivity.
Qed.

Lemma requestOutcome_transform ai (r : bool * CharacterAI) :
  requestOutcome ai r ->
  soPosition (snd r) = soPosition ai /\ soRotation (snd r) = soRotation ai.
Proof.
  intros [-> | [-> | (n & c & _ & _ & _ & ->)]]; split; reflexivity.
Qed.

(** X15: gotoPositionStraight does not move the character: the position
    after it is the position before, and what it returns is whether the
    character was at the target already.  It turns the character with
    lookAt towards the target taken at the character's own height, while
    the arrival test measures the distance in all three coordinates. *)
Theorem gotoPositionStraight_turns_and_reports ai (position : Vector3) :
  soPosition (snd (gotoPositionStraight ai position)) = soPosition ai
  /\ fst (gotoPositionStraight ai position) = isAtPosition ai position
  /\ soRotation (snd (gotoPositionStraight ai position))
     = lookAt (soRotation ai) (soPosition ai)
         (mkVector3 (vx position) (vy (soPosition ai)) (vz position)).
Proof.
  unfold gotoPositionStraight.
  pose proof (requestOutcome_transform _ _
                (tryTransitionToState_outcome (instantTurnToPosition ai position) "L"))
    as [Hpos Hrot].
  unfold goForward.
  destruct (tryTransitionToState (instantTurnToPosition ai position) "L") as [ok ai1].
  cbn in *. unfold isAtPosition. rewrite Hpos, Hrot. repeat split.
Qed.

(** *** The world: name cache, world name, range queries, routes *)

(** X16: a lookup leaves the scene alone and writes no cache entry but the
    one of the name it was asked for; and when it finds a live object, that
    object is the cache entry of the name afterwards. *)
Theorem findObjectByName_cache_update (w : GameWorld) (name : string) :
  scene (snd (findObjectByName w name)) = scene w
  /\ (forall other,
         other <> name ->
         mSceneObjectsByNameCached (snd (findObjectByName w name)) !! other
         = mSceneObjectsByNameCached w !! other)
  /\ (handleIsValid w (fst (findObjectByName w name)) = true ->
      exists h,
        fst (findObjectByName w name) = Some h
        /\ mSceneObjectsByNameCached (snd (findObjectByName w name)) !! name = Some h).
Proof.
  split; [apply findObjectByName_scene |].
  unfold findObjectByName.
  destruct (mSceneObjectsByNameCached w !! name) as [h |] eqn:Hcached;
    [destruct (isDestroyed (scene w) h) eqn:Hdead; cbn |].
  2: { split; [reflexivity |]. intros _. exists h. split; [reflexivity | exact Hcached]. }
  all: destruct (findChild (scene w) name) as [h' |]; cbn;
    [destruct (isDestroyed (scene w) h') eqn:Hdead'; cbn |];
    (split; [intros other Hother; try reflexivity; apply lookup_insert_ne; congruence |]);
    intros Hvalid; cbn in Hvalid; rewrite ?Hdead' in Hvalid; try discriminate;
    exists h'; (split; [reflexivity | apply lookup_insert_eq]).
Qed.

(** X17: looking a name up a second time gives the same handle as the
    first time and changes nothing any more. *)
Theorem findObjectByName_twice (w : GameWorld) (name : string) :
  findObjectByName (snd (findObjectByName w name)) name
  = (fst (findObjectByName w name), snd (findObjectByName w name)).
Proof.
  unfold findObjectByName at 2 3 4.
  destruct (mSceneObjectsByNameCached w !! name) as [h |] eqn:Hcached;
    [destruct (isDestroyed (scene w) h) eqn:Hdead; cbn |].
  2: { unfold findObjectByName. rewrite Hcached, Hdead. reflexivity. }
  all: destruct (findChild (scene w) name) as [h' |] eqn:Hchild; cbn;
    [destruct (isDestroyed (scene w) h') eqn:Hdead'; cbn |].
  all: unfold findObjectByName; cbn;
    rewrite ?lookup_insert_eq, ?Hcached, ?Hdead, ?Hdead', ?Hchild; cbn;
    rewrite ?Hdead'; reflexivity.
Qed.

Lemma find_first_of_app_dot (name rest : string) :
  find_first_of name "." = None ->
  find_first_of (name ++ String "." rest) "." = Some (String.length name).
Proof.
  induction name as [| a name IH]; intros Hname; [reflexivity |].
  change (find_first_of (String a (name ++ String "." rest)) "."
          = Some (S (String.length name))).
  cbn [find_first_of] in *.
  destruct (Ascii.eqb a "."); [discriminate |].
  destruct (find_first_of name ".") eqn:Hn; [discriminate |].
  rewrite (IH eq_refl). reflexivity.
Qed.

Lemma substring_prefix (name rest : string) :
  String.substring 0 (String.length name) (name ++ rest) = name.
Proof.
  induction name as [| a name IH]; [destruct rest; reflexivity |].
  change (String.substring 0 (S (String.length name)) (String a (name ++ rest))
          = String a name).
  cbn [String.substring]. rewrite IH. reflexivity.
Qed.

(** X18: the world name of a file "name.ext" is "name", when the name has
    no dot in it (also when the extension has more dots); a file name
    without any dot is its own world name. *)
Theorem worldName_strips_extension (name ext : string) :
  find_first_of name "." = None ->
  worldName (name ++ String "." ext) = name /\ worldName name = name.
Proof.
  intros Hname. unfold worldName. split.
  - rewrite (find_first_of_app_dot name ext Hname). cbn. apply substring_prefix.
  - rewrite Hname. reflexivity.
Qed.

(** X19: the world name is always a prefix of the file name and never
    contains a dot. *)
Theorem worldName_prefix_without_dot (mZenFile : string) :
  (exists rest, mZenFile = worldName mZenFile ++ rest)
  /\ find_first_of (worldName mZenFile) "." = None.
Proof.
  unfold worldName.
  induction mZenFile as [| a s [[rest Hrest] Hdot]];
    [split; [exists ""; reflexivity | reflexivity] |].
  cbn [find_first_of]. destruct (Ascii.eqb a ".") eqn:Ha.
  - split; [exists (String a s); reflexivity | reflexivity].
  - destruct (find_first_of s ".") as [n |] eqn:Hn; cbn [option_map substr0] in *.
    + change (String.substring 0 (S n) (String a s)) with (String a (String.substring 0 n s)).
      split.
      * exists rest.
        change (String a (String.substring 0 n s) ++ rest)
          with (String a (String.substring 0 n s ++ rest)).
        f_equal. exact Hrest.
      * cbn [find_first_of]. rewrite Ha, Hdot. reflexivity.
    + split.
      * exists rest. change (String a s ++ rest) with (String a (s ++ rest)).
        f_equal. exact Hrest.
      * cbn [find_first_of]. rewrite Ha, Hn. reflexivity.
Qed.

(** The traversal of [visit] is the left fold of [cacheStep] over the
    objects below the parent, in the order [descendants] lists them. *)
Lemma visit_descendants :
  forall (t : SceneTree) (cache : gmap string HSceneObject),
    visit t cache = foldl cacheStep cache (descendants t).
Proof.
  fix IH 1. intros [h n children] cache.
  change (descendants (SceneNode h n children))
    with (List.flat_map (fun child => (nodeName child, nodeHandle child) :: descendants child)
            children).
  change (visit (SceneNode h n children) cache)
    with ((fix loop (rest : list SceneTree) (cache : gmap string HSceneObject)
             : gmap string HSceneObject :=
             match rest with
             | [] => cache
             | child :: rest' =>
                 loop rest'
                   (visit child
                      (if negb (String.eqb (nodeName child) "")
                       then <[nodeName child := nodeHandle child]> cache else cache))
             end) children cache).
  revert cache. induction children as [| child rest IHrest]; intros cache; [reflexivity |].
  cbn [List.flat_map]. rewrite foldl_app. cbn [foldl].
  rewrite IHrest, IH. reflexivity.
Qed.

Lemma foldl_cacheStep_sound (entries : list (string * HSceneObject))
  (cache : gmap string HSceneObject) (name : string) (h : HSceneObject) :
  foldl cacheStep cache entries !! name = Some h ->
  cache !! name = Some h \/ (name <> "" /\ (name, h) ∈ entries).
Proof.
  revert cache. induction entries as [| [n x] rest IH]; intros cache; cbn; [auto |].
  intros Hfound. destruct (IH _ Hfound) as [Hstep | [Hne Hin]].
  - unfold cacheStep in Hstep. cbn in Hstep.
    destruct (String.eqb n "") eqn:Hn; cbn in Hstep; [left; exact Hstep |].
    destruct (decide (n = name)) as [-> | Hother].
    + rewrite lookup_insert_eq in Hstep. injection Hstep as ->.
      right. split; [| left]. intros ->. discriminate Hn.
    + rewrite lookup_insert_ne in Hstep by exact Hother. left; exact Hstep.
  - right. split; [exact Hne | right; exact Hin].
Qed.

Lemma foldl_cacheStep_skip (entries : list (string * HSceneObject))
  (cache : gmap string HSceneObject) (name : string) :
  name ∉ entries.*1 ->
  foldl cacheStep cache entries !! name = cache !! name.
Proof.
  revert cache. induction entries as [| [n x] rest IH]; intros cache Hnot; [reflexivity |].
  cbn in *. rewrite IH by (intros Hin; apply Hnot; right; exact Hin).
  unfold cacheStep. cbn. destruct (String.eqb n ""); cbn; [reflexivity |].
  apply lookup_insert_ne. intros ->. apply Hnot. left.
Qed.

Lemma foldl_cacheStep_last (before after : list (string * HSceneObject))
  (cache : gmap string HSceneObject) (name : string) (h : HSceneObject) :
  name <> "" -> name ∉ after.*1 ->
  foldl cacheStep cache (before ++ (name, h) :: after) !! name = Some h.
Proof.
  intros Hne Hlast. rewrite foldl_app. cbn [foldl].
  rewrite foldl_cacheStep_skip by exact Hlast.
  unfold cacheStep. cbn.
  destruct (String.eqb name "") eqn:Hn; cbn; [| apply lookup_insert_eq].
  apply String.eqb_eq in Hn. contradiction.
Qed.

(** X20: after fillFindByNameCache the cache holds nothing of what it held
    before: an entry is always the non-empty name of an object below the
    root, with that object (the root itself and objects without a name are
    not entered); and of several objects with one name the last one the
    traversal meets is the entry. *)
Theorem fillFindByNameCache_entries (w : GameWorld) (root : SceneTree)
  (name : string) (h : HSceneObject) :
  (mSceneObjectsByNameCached (fillFindByNameCache w root) !! name = Some h ->
   name <> "" /\ (name, h) ∈ descendants root)
  /\ (forall before after,
         descendants root = (before ++ (name, h) :: after)%list ->
         name <> "" ->
         name ∉ after.*1 ->
         mSceneObjectsByNameCached (fillFindByNameCache w root) !! name = Some h).
Proof.
  unfold fillFindByNameCache. cbn. rewrite visit_descendants. split.
  - intros Hfound. destruct (foldl_cacheStep_sound _ _ _ _ Hfound) as [Hempty | Hin];
      [rewrite lookup_empty in Hempty; discriminate | exact Hin].
  - intros before after -> Hne Hlast. apply foldl_cacheStep_last; assumption.
Qed.


Lemma collectInRange_filter {H : Type} (positionOf : H -> Vector3) (rangeSq : float)
  (around : Vector3) (all result : list H) :
  collectInRange positionOf rangeSq around all result
  = (result
     ++ List.filter
          (fun c => F32.ltb (Vec3.squaredDistance (positionOf c) around) rangeSq) all)%list.
Proof.
  revert result. induction all as [| c rest IH]; intros result; cbn.
  - rewrite app_nil_r. reflexivity.
  - rewrite IH. destruct (F32.ltb _ rangeSq); [rewrite <- app_assoc |]; reflexivity.
Qed.

(** X22: findCharactersInRange and findItemsInRange return exactly the
    handles whose squared distance to the point is below the squared range,
    once per occurrence and in the order the world holds them. *)
Theorem range_queries_filter {H : Type} (all : list H) (positionOf : H -> Vector3)
  (rangeInMeters : float) (around : Vector3) :
  findCharactersInRange all positionOf rangeInMeters around
  = List.filter
      (fun c => F32.ltb (Vec3.squaredDistance (positionOf c) around)
                  (F32.mul rangeInMeters rangeInMeters)) all
  /\ findItemsInRange all positionOf rangeInMeters around
     = List.filter
         (fun i => F32.ltb (Vec3.squaredDistance (positionOf i) around)
                     (F32.mul rangeInMeters rangeInMeters)) all.
Proof.
  unfold findCharactersInRange, findItemsInRange. rewrite collectInRange_filter.
  split; reflexivity.
Qed.

Lemma binary_round_aux_sign (s : bool) (m e : Z) (l : location) :
  match binary_round_aux F32.prec F32.emax s m e l with
  | S754_zero s' | S754_infinity s' | S754_finite s' _ _ => s' = s
  | S754_nan => True
  end.
Proof.
  unfold binary_round_aux.
  destruct (shr_fexp F32.prec F32.emax m e l) as [mrs1 e1].
  destruct (shr_fexp F32.prec F32.emax _ e1 loc_Exact) as [mrs2 e2].
  destruct (shr_m mrs2); [reflexivity | | exact I].
  destruct (Z.leb e2 _); reflexivity.
Qed.

Lemma mul_self_notNegative (x : float) : notNegative (F32.mul x x).
Proof.
  destruct x as [s | s | | s m e]; cbn; try (destruct s; reflexivity); try exact I.
  unfold F32.mul, SFmul, notNegative.
  pose proof (binary_round_aux_sign (xorb s s) (Z.pos (m * m)) (e + e) loc_Exact) as Hsign.
  destruct (binary_round_aux F32.prec F32.emax (xorb s s) (Z.pos (m * m)) (e + e) loc_Exact);
    try exact I; rewrite Hsign; destruct s; reflexivity.
Qed.

Lemma add_notNegative (a b : float) :
  notNegative a -> notNegative b -> notNegative (F32.add a b).
Proof.
  destruct a as [sa | sa | | sa ma ea], b as [sb | sb | | sb mb eb];
    cbn [notNegative]; intros Ha Hb; subst; try exact I; try reflexivity.
  - unfold F32.add, SFadd. destruct sa, sb; exact I.
  - unfold F32.add, SFadd. cbn [cond_Zopp].
    destruct (shl_align ma ea (Z.min ea eb)) as [ma' ea'],
             (shl_align mb eb (Z.min ea eb)) as [mb' eb'].
    cbn [fst]. change (Z.pos ma' + Z.pos mb')%Z with (Z.pos (ma' + mb')).
    unfold binary_normalize, binary_round.
    match goal with
    | |- context [shl_align ?m ?e ?e'] => destruct (shl_align m e e') as [mz ez]
    end.
    pose proof (binary_round_aux_sign false (Z.pos mz) ez loc_Exact) as Hsign.
    destruct (binary_round_aux F32.prec F32.emax false (Z.pos mz) ez loc_Exact);
      try exact I; exact Hsign.
Qed.

Lemma squaredLength_notNegative (v : Vector3) : notNegative (Vec3.squaredLength v).
Proof.
  unfold Vec3.squaredLength.
  repeat apply add_notNegative; apply mul_self_notNegative.
Qed.

Lemma ltb_notNegative_zero (a : float) (s : bool) :
  notNegative a -> F32.ltb a (S754_zero s) = false.
Proof.
  destruct a as [sa | sa | | sa ma ea]; cbn [notNegative]; intros Ha; subst; reflexivity.
Qed.

Lemma mul_opp_opp (r : float) : F32.mul (F32.opp r) (F32.opp r) = F32.mul r r.
Proof.
  destruct r as [s | s | | s m e]; [destruct s | destruct s | | ]; try reflexivity.
  unfold F32.mul, F32.opp, SFopp, SFmul. destruct s; reflexivity.
Qed.

(** X23: a range of zero (of either sign) finds nothing, not even a
    character standing on the point itself; and a negative range finds what
    the range of the same magnitude finds, since only its square is used. *)
Theorem range_queries_zero_and_sign {H : Type} (all : list H) (positionOf : H -> Vector3)
  (rangeInMeters : float) (around : Vector3) :
  (forall s, findCharactersInRange all positionOf (S754_zero s) around = []
             /\ findItemsInRange all positionOf (S754_zero s) around = [])
  /\ findCharactersInRange all positionOf (F32.opp rangeInMeters) around
     = findCharactersInRange all positionOf rangeInMeters around
  /\ findItemsInRange all positionOf (F32.opp rangeInMeters) around
     = findItemsInRange all positionOf rangeInMeters around.
Proof.
  unfold findCharactersInRange, findItemsInRange. rewrite mul_opp_opp.
  split; [| split; reflexivity].
  intros s. rewrite collectInRange_filter.
  change (F32.mul (S754_zero s) (S754_zero s)) with (S754_zero (xorb s s)).
  assert (Hnone : List.filter
                    (fun c => F32.ltb (Vec3.squaredDistance (positionOf c) around)
                                (S754_zero (xorb s s))) all = []).
  { induction all as [| c rest IH]; cbn; [reflexivity |].
    rewrite ltb_notNegative_zero by apply squaredLength_notNegative. exact IH. }
  rewrite Hnone. split; reflexivity.
Qed.

(** X24: findWay by names returns the empty route, and leaves the world as
    it was, when the start is neither a waypoint nor an object of the world,
    and likewise when the start is a waypoint and the goal is neither; when
    both names are waypoints the route is the waynet's, and the world is not
    consulted. *)
Theorem findWay_endpoints (w : GameWorld) (net : Waynet) (from to : string) :
  (findWaypoint net from = None ->
   handleIsValid w (fst (findObjectByName w from)) = false ->
   findWay w net from to = ([], w))
  /\ (forall a,
         findWaypoint net from = Some a ->
         findWaypoint net to = None ->
         handleIsValid w (fst (findObjectByName w to)) = false ->
         findWay w net from to = ([], w))
  /\ (forall a b,
         findWaypoint net from = Some a ->
         findWaypoint net to = Some b ->
         findWay w net from to = (waynetFindWay net a b, w)).
Proof.
  assert (Hmiss : forall name,
             findWaypoint net name = None ->
             handleIsValid w (fst (findObjectByName w name)) = false ->
             resolveWayEnd w net name = inl w).
  { intros name Hnone Hinvalid. unfold resolveWayEnd. rewrite Hnone.
    pose proof (findObjectByName_miss w name Hinvalid) as Hsame.
    destruct (findObjectByName w name) as [so w1]. cbn in *. subst w1.
    rewrite Hinvalid. reflexivity. }
  assert (Hway : forall name a,
             findWaypoint net name = Some a -> resolveWayEnd w net name = inr (Some a, w)).
  { intros name a Hsome. unfold resolveWayEnd. rewrite Hsome. reflexivity. }
  unfold findWay. repeat split.
  - intros Hnone Hinvalid. rewrite (Hmiss _ Hnone Hinvalid). reflexivity.
  - intros a Ha Hnone Hinvalid. rewrite (Hway _ _ Ha), (Hmiss _ Hnone Hinvalid). reflexivity.
  - intros a b Ha Hb. rewrite (Hway _ _ Ha), (Hway _ _ Hb). reflexivity.
Qed.

(** *** Two more edges of the tick and of the transition *)

(** X25: with a visual assigned, when the animation being played has no
    clip (nothing is playing, or a name the visual does not have) and the
    transition animation of a request has none either, the request is
    reported as a success although nothing is played, and the stand-in
    through S_STAND is not tried; changeWalkMode then adopts the requested
    walk mode. *)
Theorem missing_clip_counts_as_success ai anim :
  hasVisual (mVisual ai) = true ->
  clipPlayingNow ai = None ->
  findAnimationClip (mVisual ai) (findAnimationToTransitionTo (mVisual ai) anim) = None ->
  tryPlayTransitionAnimationTo ai anim = (true, ai)
  /\ (forall walkMode,
         anim = constructStateAnimationName (mWeaponMode ai) walkMode "" ->
         changeWalkMode ai walkMode = (true, set_mWalkMode ai walkMode)).
Proof.
  intros Hvis Hnow Hclip.
  assert (Hplay : tryPlayTransitionAnimationTo ai anim = (true, ai)).
  { rewrite tryPlayTransitionAnimationTo_cases, Hvis. cbn.
    unfold alreadyInTarget. rewrite Hclip, Hnow.
    rewrite bool_decide_eq_true_2 by reflexivity. reflexivity. }
  split; [exact Hplay |].
  intros walkMode ->. unfold changeWalkMode. rewrite Hplay. reflexivity.
Qed.

Lemma updatePhysics_mVisual ai rootMotion dt :
  mVisual (updatePhysics ai rootMotion dt) = mVisual ai.
Proof.
  unfold updatePhysics, doMove.
  destruct (needsToUpdatePhysics ai rootMotion); [| reflexivity].
  destruct (controllerMove _ _ _) as [[ctrl pos] flags]; reflexivity.
Qed.

Lemma frameRootMotion_mVisual ai :
  mVisual (snd (frameRootMotion ai)) = mVisual ai
  \/ mVisual (snd (frameRootMotion ai)) = snd (resolveFrameRootMotion (mVisual ai)).
Proof.
  unfold frameRootMotion.
  destruct (isPlayingIdleAnimation (mVisual ai)); cbn; [left; reflexivity |].
  destruct (resolveFrameRootMotion (mVisual ai)); right; reflexivity.
Qed.

(** X26: whatever the state and the input, a tick never calls
    playAnimationClip and calls the controller's move at most once; and
    all it does to the visual is, at most, to take the root motion since
    the last query. *)
Theorem tick_sends_at_most_one_move ai input :
  (tickCalls ai input = [] \/ exists velocity, tickCalls ai input = [CallMove velocity])
  /\ (mVisual (fixedUpdate ai input) = mVisual ai
      \/ mVisual (fixedUpdate ai input) = snd (resolveFrameRootMotion (mVisual ai))).
Proof.
  unfold tickCalls.
  destruct (handlePhysicsActivation_fields ai (cameraPosition input))
    as (_ & _ & _ & Hc0 & _ & Hv0 & _).
  cbn in Hc0, Hv0.
  destruct (mIsPhysicsActive (handlePhysicsActivation ai (cameraPosition input))) eqn:E.
  - rewrite (fixedUpdate_active _ _ E). cbn.
    destruct (fixedUpdate_before_physics ai (cameraPosition input) (fixedFrameDelta input))
      as (_ & _ & Hc & _).
    destruct (handleTurning_fields (handlePhysicsActivation ai (cameraPosition input)))
      as (_ & _ & _ & _ & Hv1 & _).
    destruct (handleFallingAndFlying_fields
                (handleTurning (handlePhysicsActivation ai (cameraPosition input)))
                (fixedFrameDelta input))
      as (_ & _ & _ & _ & Hv2 & _).
    cbn in Hc, Hv1, Hv2. set (ai1 := handleFallingAndFlying _ _) in *.
    assert (Hvis : mVisual ai1 = mVisual ai) by congruence.
    split.
    + pose proof (updatePhysics_calls (snd (frameRootMotion ai1)) (fst (frameRootMotion ai1))
                    (fixedFrameDelta input)) as Hup.
      destruct (needsToUpdatePhysics _ _).
      * destruct Hup as [velocity Hup]. right. exists velocity.
        rewrite Hup, Hc. apply drop_app_length.
      * left. rewrite Hup, Hc. apply drop_all.
    + rewrite updatePhysics_mVisual, <- Hvis. apply frameRootMotion_mVisual.
  - rewrite (fixedUpdate_inactive _ _ E). split; left; [| exact Hv0].
    rewrite Hc0. apply drop_all.
Qed.

Lemma fixedUpdates_rotation_without_turn ai (inputs : list TickInput) :
  mTurnDirection ai = TurnNone ->
  Forall (fun a => soRotation a = soRotation ai) (fixedUpdates ai inputs).
Proof.
  revert ai. induction inputs as [| input rest IH]; intros ai Hnone; cbn; constructor.
  - rewrite fixedUpdate_rotation_of_turning, handleTurning_rotation, Hnone.
    destruct (mIsPhysicsActive _); reflexivity.
  - assert (Hrot : soRotation (fixedUpdate ai input) = soRotation ai).
    { rewrite fixedUpdate_rotation_of_turning, handleTurning_rotation, Hnone.
      destruct (mIsPhysicsActive _); reflexivity. }
    rewrite <- Hrot. apply IH.
    destruct (fixedUpdate_locomotion_state ai input) as (_ & _ & ->). exact Hnone.
Qed.

(** X27: turnLeft, turnRight and stopTurning always succeed and the last
    one wins; and once stopTurning was called, no later tick rotates the
    character, however many ticks follow. *)
Theorem stopTurning_stops_the_turn ai (inputs : list TickInput) :
  fst (turnLeft ai) = true /\ fst (turnRight ai) = true /\ fst (stopTurning ai) = true
  /\ snd (turnRight (snd (turnLeft ai))) = snd (turnRight ai)
  /\ snd (stopTurning (snd (turnLeft ai))) = snd (stopTurning ai)
  /\ Forall (fun a => soRotation a = soRotation ai)
       (fixedUpdates (snd (stopTurning ai)) inputs).
Proof.
  repeat split.
  apply (fixedUpdates_rotation_without_turn (snd (stopTurning ai)) inputs). reflexivity.
Qed.

End MoreProperties.

(** ** The further statements on concrete inputs *)

Import MoreTables.

(** The sleeping human with the camera far away, and the standing one when
    the camera leaves. *)
Lemma tick_ending_inactive_is_frozen_witness :
  fixedUpdate (asleep human) far = asleep human
  /\ fixedUpdate (set_mTurnDirection (standing human) TurnLeft) far
     = set_mTurnDirection (asleep human) TurnLeft.
Proof.
  split.
  - rewrite (tick_ending_inactive_is_frozen (asleep human) far) by (vm_compute; reflexivity).
    reflexivity.
  - rewrite (tick_ending_inactive_is_frozen
               (set_mTurnDirection (standing human) TurnLeft) far)
      by (vm_compute; reflexivity).
    reflexivity.
Defined.

(** A character wrongly marked as both airborne and grounded is put right
    by one tick. *)
Lemma tick_airborne_iff_not_grounded_witness :
  mIsInAir (fixedUpdate (set_mIsInAir (standing human) true) near)
  = negb (mIsStandingOnSolidGround (fixedUpdate (set_mIsInAir (standing human) true) near)).
Proof.
  apply (tick_airborne_iff_not_grounded (set_mIsInAir (standing human) true) near).
  vm_compute. reflexivity.
Defined.

(** One tick of the free fall at 60 Hz. *)
Lemma tick_move_velocity_witness :
  tickCalls (falling human) near
  = [CallMove
       (mkVector3 F32.zero
          (F32.add F32.zero
             (F32.mul (F32.add (F32.opp F32.one) (F32.mul FALLING_ACCELERATION_Y sixtieth))
                sixtieth))
          F32.zero)].
Proof.
  rewrite (tick_move_velocity (falling human) near) by (vm_compute; reflexivity).
  vm_compute. reflexivity.
Defined.

(** While the back jump plays. *)
Lemma closed_gate_rejects_requests_witness :
  goForward (standing jumpingBack) = (false, standing jumpingBack)
  /\ jump (standing jumpingBack) = (false, standing jumpingBack).
Proof.
  assert (Hgate : isStateSwitchAllowed (standing jumpingBack) = false)
    by (vm_compute; reflexivity).
  split.
  - apply (proj1 (closed_gate_rejects_requests (standing jumpingBack) Hgate)).
  - apply (proj1 (proj2 (proj2 (proj2 (proj2
             (closed_gate_rejects_requests (standing jumpingBack) Hgate)))))).
Defined.

(** Before the visual is set up. *)
Lemma no_visual_rejects_requests_witness :
  goForward (standing noVisual) = (false, standing noVisual)
  /\ stopMoving (standing noVisual) = (false, standing noVisual).
Proof.
  split.
  - apply (proj1 (no_visual_rejects_requests (standing noVisual) (eq_refl false))).
  - apply (proj1 (proj2 (proj2 (proj2 (proj2
             (no_visual_rejects_requests (standing noVisual) (eq_refl false))))))).
Defined.

(** A character found sneaking after it toggled walking was sneaking
    before: here the toggle was rejected, there being no visual. *)
Lemma toggles_never_enter_witness :
  mWalkMode (tryToggleWalking (set_mWalkMode (standing noVisual) Sneak)) = Sneak
  /\ mWalkMode (set_mWalkMode (standing noVisual) Sneak) = Sneak.
Proof.
  assert (Hafter : mWalkMode (tryToggleWalking (set_mWalkMode (standing noVisual) Sneak))
                   = Sneak) by (vm_compute; reflexivity).
  split; [exact Hafter |].
  apply (proj1 (toggles_never_enter (set_mWalkMode (standing noVisual) Sneak)) Hafter).
Defined.

(** Fists out and away again. *)
Lemma melee_toggle_without_visual_witness :
  mWeaponMode (tryToggleMeleeWeapon (standing noVisual)) = Fist
  /\ tryToggleMeleeWeapon (tryToggleMeleeWeapon (standing noVisual)) = standing noVisual.
Proof.
  split.
  - apply (proj1 (melee_toggle_without_visual (standing noVisual) (eq_refl false))).
  - apply (proj2 (melee_toggle_without_visual (standing noVisual) (eq_refl false))).
    left. reflexivity.
Defined.

(** The first lookup of the waypoint enters it into the cache. *)
Lemma findObjectByName_cache_update_witness :
  exists h,
    fst (findObjectByName world "WP_START") = Some h
    /\ mSceneObjectsByNameCached (snd (findObjectByName world "WP_START")) !! "WP_START"
       = Some h.
Proof.
  apply (proj2 (proj2 (findObjectByName_cache_update world "WP_START"))).
  vm_compute. reflexivity.
Defined.

(** NEWWORLD.ZEN, and a name with two extensions. *)
Lemma worldName_strips_extension_witness :
  worldName "NEWWORLD.ZEN" = "NEWWORLD" /\ worldName "OLDWORLD.ZEN.BAK" = "OLDWORLD".
Proof.
  split.
  - apply (proj1 (worldName_strips_extension "NEWWORLD" "ZEN" eq_refl)).
  - apply (proj1 (worldName_strips_extension "OLDWORLD" "ZEN.BAK" eq_refl)).
Defined.

(** The camp: of the two chests the second one is cached. *)
Lemma fillFindByNameCache_entries_witness :
  mSceneObjectsByNameCached (fillFindByNameCache camp campTree) !! "CHEST" = Some 4%nat.
Proof.
  apply (proj2 (fillFindByNameCache_entries camp campTree "CHEST" 4%nat)
           [("WP_START", 1%nat); ("", 2%nat); ("CHEST", 3%nat)] []).
  - reflexivity.
  - discriminate.
  - cbn. apply not_elem_of_nil.
Defined.


(** Routes between the two waypoints and from a name nobody knows. *)
Lemma findWay_endpoints_witness :
  findWay (Net := waynet) world roads "NOWHERE" "WP_B" = ([], world)
  /\ findWay (Net := waynet) world roads "WP_A" "NOWHERE" = ([], world)
  /\ findWay (Net := waynet) world roads "WP_A" "WP_B" = ([0%nat; 1%nat], world).
Proof.
  split; [| split].
  - apply (proj1 (findWay_endpoints (Net := waynet) world roads "NOWHERE" "WP_B"));
      vm_compute; reflexivity.
  - apply (proj1 (proj2 (findWay_endpoints (Net := waynet) world roads "WP_A" "NOWHERE"))
             0%nat);
      vm_compute; reflexivity.
  - apply (proj2 (proj2 (findWay_endpoints (Net := waynet) world roads "WP_A" "WP_B"))
             0%nat 1%nat);
      vm_compute; reflexivity.
Defined.

(** The bare visual: asked to jump and to walk. *)
Lemma missing_clip_counts_as_success_witness :
  tryPlayTransitionAnimationTo (standing bare) "S_JUMP" = (true, standing bare)
  /\ changeWalkMode (standing bare) Walk = (true, set_mWalkMode (standing bare) Walk).
Proof.
  split.
  - apply (proj1 (missing_clip_counts_as_success (standing bare) "S_JUMP"
                    (eq_refl true) (eq_refl None) (eq_refl None))).
  - apply (proj2 (missing_clip_counts_as_success (standing bare) "S_WALK"
                    (eq_refl true) (eq_refl None) (eq_refl None)) Walk).
    reflexivity.
Defined.
